(** * boring-registry: the S3 module storage (pkg/module/storage_s3.go)

    A shallow embedding of [S3Storage] and of its three operations,
    [GetModule], [ListModuleVersions] and [UploadModule], over an explicit
    model of the object store they talk to. *)

From Stdlib Require Import Ascii String.
From stdpp Require Import base gmap strings list sorting.

Open Scope string_scope.

(** ** Data model *)

(** The Go struct [Module] of the package (the name is a keyword here). *)
Record module := mkModule {
  Namespace : string;
  Name : string;
  Provider : string;
  Version : string;
  DownloadURL : string
}.

(** [Module{}], the zero value returned next to every error. *)
Definition zeroModule : module := mkModule "" "" "" "" "".

(** The configuration fields of [S3Storage]; its two client handles
    ([s3] and [uploader]) are the service state threaded below. *)
Record S3Storage := mkS3Storage {
  bucket : string;
  bucketPrefix : string;
  archiveFormat : string;
  bucketRegion : string;
  pathStyle : bool;
  bucketEndpoint : string
}.

(** ** Errors *)

(** The package-level error values the file wraps. They are compared by
    identity in Go, hence one constructor each. *)
Inductive sentinel :=
| ErrNotFound
| ErrAlreadyExists
| ErrListFailed
| ErrUploadFailed.

(** Errors as built with github.com/pkg/errors: [errors.New],
    [errors.Wrap] and [errors.Wrapf] (called with a format and no operand). *)
Inductive error :=
| Sentinel (e : sentinel)
| New (msg : string)
| Wrap (cause : error) (msg : string)
| Wrapf (cause : error) (format : string).

(** [errors.Cause]: the innermost error of a chain of wraps. *)
Fixpoint Cause (e : error) : error :=
  match e with
  | Wrap c _ => Cause c
  | Wrapf c _ => Cause c
  | _ => e
  end.

Section ErrorText.
(** The texts of the package-level errors and [fmt.Sprintf] on a format
    without operands are declared outside this file. *)
Variable sentinelText : sentinel → string.
Variable Sprintf0 : string → string.

(** The [Error()] method: a wrap prints its message, a colon and its cause. *)
Fixpoint Error (e : error) : string :=
  match e with
  | Sentinel s => sentinelText s
  | New msg => msg
  | Wrap c msg => msg ++ ": " ++ Error c
  | Wrapf c format => Sprintf0 format ++ ": " ++ Error c
  end.
End ErrorText.

(** [sub] occurs inside [s]. *)
Definition includes (s sub : string) : Prop :=
  ∃ before after, s = before ++ sub ++ after.

(** ** The object store *)

(** The requests the three operations send. *)
Inductive request :=
| HeadObjectReq (Bucket Key : string)
| ListObjectsV2Req (Bucket Prefix : string) (page : nat)
| UploadReq (Bucket Key Body : string).

(** The service: the stored objects by bucket and key, the script of
    transport outcomes still to come (one entry per request: [None] lets the
    request through, [Some msg] makes the SDK call return an error with that
    text; an exhausted script lets everything through), and the log of the
    requests sent so far with the error text each SDK call returned. *)
Record S3 := mkS3 {
  objects : gmap (string * string) string;
  faults : list (option string);
  trace : list (request * option string)
}.

(** Calls on the service thread its state. *)
Definition IO (A : Type) : Type := S3 → A * S3.

Definition ret {A} (a : A) : IO A := λ w, (a, w).

Definition bind {A B} (m : IO A) (k : A → IO B) : IO B :=
  λ w, let '(a, w') := m w in k a w'.

Declare Scope io_scope.
Delimit Scope io_scope with io.
Notation "x <- m ;; k" := (bind m (λ x, k))
  (at level 100, m at next level, right associativity) : io_scope.
Open Scope io_scope.

(** The next transport outcome. *)
Definition transport : IO (option string) :=
  λ w, match faults w with
       | [] => (None, w)
       | f :: fs => (f, mkS3 (objects w) fs (trace w))
       end.

Definition record (r : request) (out : option string) : IO unit :=
  λ w, (tt, mkS3 (objects w) (faults w) (trace w ++ [(r, out)])).

Definition stored (b k : string) : IO (option string) :=
  λ w, (objects w !! (b, k), w).

Definition store (b k body : string) : IO unit :=
  λ w, (tt, mkS3 (<[(b, k) := body]> (objects w)) (faults w) (trace w)).

(** The text of the error the SDK returns for a HEAD on a missing key (the
    SDK appends the status code and a request id to it). *)
Definition headNotFound : string := "NotFound: Not Found".

(** [s3.HeadObject]: [None] when the object is there, the error text
    otherwise. *)
Definition HeadObject (b k : string) : IO (option string) :=
  f <- transport ;;
  o <- stored b k ;;
  let out := match f, o with
             | Some msg, _ => Some msg
             | None, Some _ => None
             | None, None => Some headNotFound
             end in
  _ <- record (HeadObjectReq b k) out ;;
  ret out.

(** [uploader.Upload]: the object is written when the request goes through,
    and nothing is written when it does not. *)
Definition Upload (b k body : string) : IO (option string) :=
  f <- transport ;;
  _ <- match f with
      | Some _ => ret tt
      | None => store b k body
      end ;;
  _ <- record (UploadReq b k body) f ;;
  ret f.

(** Key [k] starts with [prefix]. *)
Definition hasPrefix (prefix k : string) : Prop := String.prefix prefix k = true.

Definition inBucket (b : string) (bk : string * string) : Prop := bk.1 = b.

#[global] Instance hasPrefix_dec : RelDecision hasPrefix.
Proof. intros x y. unfold hasPrefix. apply _. Defined.

#[global] Instance inBucket_dec b bk : Decision (inBucket b bk).
Proof. unfold inBucket. apply _. Defined.

(** The keys of bucket [b] that start with [prefix], in the order the
    service lists them (ascending, byte by byte). *)
Definition keysUnder (b prefix : string) (w : S3) : list string :=
  merge_sort String.le
    (filter (hasPrefix prefix)
       (snd <$> filter (inBucket b) (fst <$> map_to_list (objects w)))).

(** A listing is served in pages of at most [MaxKeys] keys (1000 unless the
    request says otherwise, and this file's request does not). A listing
    without keys is one empty page. *)
Definition MaxKeys : nat := 1000.

Fixpoint paginate_go {A} (n room : nat) (cur : list A) (l : list A)
  : list (list A) :=
  match l with
  | [] => [rev cur]
  | x :: l' =>
      match room with
      | 0 => rev cur :: paginate_go n (pred n) [x] l'
      | S r => paginate_go n r (x :: cur) l'
      end
  end.

Definition paginate {A} (n : nat) (l : list A) : list (list A) :=
  paginate_go n n [] l.

Section Pages.
(** The callback's captured variables are passed as an accumulator. *)
Context {St : Type}.
Variable b prefix : string.
Variable fn : list string → bool → St → St * bool.

(** The page loop of [s3.ListObjectsV2Pages]: one request per page; the
    loop ends at the first request that fails, when the callback returns
    false, or after the last page. *)
Fixpoint servePages (i : nat) (pages : list (list string)) (acc : St)
  : IO (St * option string) :=
  match pages with
  | [] => ret (acc, None)
  | page :: rest =>
      f <- transport ;;
      _ <- record (ListObjectsV2Req b prefix i) f ;;
      match f with
      | Some msg => ret (acc, Some msg)
      | None =>
          let '(acc', continue) := fn page (bool_decide (rest = [])) acc in
          if continue then servePages (S i) rest acc'
          else ret (acc', None)
      end
  end.

Definition ListObjectsV2Pages (init : St) : IO (St * option string) :=
  λ w, servePages 0 (paginate MaxKeys (keysUnder b prefix w)) init w.
End Pages.

(** ** Vocabulary of the statements *)

(** The transport outcome of the next request. *)
Definition answer (w : S3) : option string := hd None (faults w).

(** The service after request [r] was sent and the SDK call returned [out]. *)
Definition sent (r : request) (out : option string) (w : S3) : S3 :=
  mkS3 (objects w) (tail (faults w)) (trace w ++ [(r, out)]).

(** The service after an upload of [body] to key [k] of bucket [b] went
    through. *)
Definition written (b k body : string) (w : S3) : S3 :=
  mkS3 (<[(b, k) := body]> (objects w)) (tail (faults w))
    (trace w ++ [(UploadReq b k body, None)]).

(** What a HEAD on key [k] of bucket [b] returns in [w]. *)
Definition probe (b k : string) (w : S3) : option string :=
  match answer w, objects w !! (b, k) with
  | Some msg, _ => Some msg
  | None, Some _ => None
  | None, None => Some headNotFound
  end.

(** The object writes of a log: the uploads that went through. *)
Definition isWrite (e : request * option string) : bool :=
  match e with
  | (UploadReq _ _ _, None) => true
  | _ => false
  end.

Definition writes (t : list (request * option string)) : nat :=
  length (List.filter isWrite t).

(** The first failure among the next [n] transport outcomes. *)
Fixpoint firstFault (n : nat) (fs : list (option string)) : option string :=
  match n, fs with
  | S n', Some msg :: _ => Some msg
  | S n', None :: fs' => firstFault n' fs'
  | _, _ => None
  end.

(** The error of the listing call for [prefix] in bucket [b]: the first
    failure among its page requests. *)
Definition listingOutcome (b prefix : string) (w : S3) : option string :=
  firstFault (length (paginate MaxKeys (keysUnder b prefix w))) (faults w).

(** ** The options that set configuration fields *)

Definition WithS3StorageBucketPrefix (prefix : string) (s : S3Storage) : S3Storage :=
  mkS3Storage (bucket s) prefix (archiveFormat s) (bucketRegion s)
    (pathStyle s) (bucketEndpoint s).

Definition WithS3ArchiveFormat (format : string) (s : S3Storage) : S3Storage :=
  mkS3Storage (bucket s) (bucketPrefix s) format (bucketRegion s)
    (pathStyle s) (bucketEndpoint s).

Definition WithS3StorageBucketRegion (region : string) (s : S3Storage) : S3Storage :=
  mkS3Storage (bucket s) (bucketPrefix s) (archiveFormat s) region
    (pathStyle s) (bucketEndpoint s).

(** ** The operations of S3Storage *)

(** [storagePrefix], [storagePath], [objectMetadata] and
    [DefaultArchiveFormat] are declared in another file of the package: the
    operations are written over any such key layout. *)
Class KeyLayout := {
  storagePrefix : string → string → string → string → string;
  storagePath : string → string → string → string → string → string → string;
  objectMetadata : string → gmap string string;
  DefaultArchiveFormat : string
}.

(** [fmt.Sprintf("%s.s3-%s.amazonaws.com/%s", s.bucket, s.bucketRegion, key)] *)
Definition downloadURL (s : S3Storage) (key : string) : string :=
  bucket s ++ ".s3-" ++ bucketRegion s ++ ".amazonaws.com/" ++ key.

(** The context argument of the three operations is not used by their
    bodies and is left out. *)
Section Storage.
Context {layout : KeyLayout}.

Definition GetModule (s : S3Storage) (namespace name provider version : string)
  : IO (module * option error) :=
  let key := storagePath (bucketPrefix s) namespace name provider version
               (archiveFormat s) in
  err <- HeadObject (bucket s) key ;;
  match err with
  | Some msg => ret (zeroModule, Some (Wrap (Sentinel ErrNotFound) msg))
  | None =>
      ret (mkModule namespace name provider version (downloadURL s key), None)
  end.

(** The callback [fn] of ListModuleVersions; [modules] is the slice it
    appends to. *)
Fixpoint collect (s : S3Storage) (namespace name provider : string)
  (contents : list string) (modules : list module) : list module :=
  match contents with
  | [] => modules
  | key :: rest =>
      let metadata := objectMetadata key in
      match metadata !! "version" with
      | None => collect s namespace name provider rest modules
      | Some version =>
          collect s namespace name provider rest
            (modules ++ [mkModule namespace name provider version
                           (downloadURL s key)])
      end
  end.

Definition listFn (s : S3Storage) (namespace name provider : string)
  (page : list string) (last : bool) (modules : list module)
  : list module * bool :=
  (collect s namespace name provider page modules, true).

Definition ListModuleVersions (s : S3Storage) (namespace name provider : string)
  : IO (list module * option error) :=
  r <- ListObjectsV2Pages (bucket s)
         (storagePrefix (bucketPrefix s) namespace name provider)
         (listFn s namespace name provider) [] ;;
  match r.2 with
  | Some msg => ret ([], Some (Wrap (Sentinel ErrListFailed) msg))
  | None => ret (r.1, None)
  end.

Definition UploadModule (s : S3Storage)
  (namespace name provider version body : string)
  : IO (module * option error) :=
  if decide (namespace = "") then
    ret (zeroModule, Some (New "namespace not defined"))
  else if decide (name = "") then
    ret (zeroModule, Some (New "name not defined"))
  else if decide (provider = "") then
    ret (zeroModule, Some (New "provider not defined"))
  else if decide (version = "") then
    ret (zeroModule, Some (New "version not defined"))
  else
    let key := storagePath (bucketPrefix s) namespace name provider version
                 DefaultArchiveFormat in
    r <- GetModule s namespace name provider version ;;
    match r.2 with
    | None => ret (zeroModule, Some (Wrap (Sentinel ErrAlreadyExists) key))
    | Some _ =>
        uerr <- Upload (bucket s)
                 (storagePath (bucketPrefix s) namespace name provider version
                    DefaultArchiveFormat) body ;;
        match uerr with
        | Some msg => ret (zeroModule, Some (Wrapf (Sentinel ErrUploadFailed) msg))
        | None => GetModule s namespace name provider version
        end
    end.

(** A key from which a version is recovered. *)
Definition parseable (key : string) : Prop :=
  is_Some (objectMetadata key !! "version").

#[global] Instance parseable_dec key : Decision (parseable key).
Proof. unfold parseable. apply _. Defined.

(** The module ListModuleVersions reports for a listed key. *)
Definition moduleOfKey (s : S3Storage) (namespace name provider key : string)
  : option module :=
  (λ version, mkModule namespace name provider version (downloadURL s key))
    <$> objectMetadata key !! "version".

(** The key GetModule looks up and the key UploadModule writes. *)
Definition readKey (s : S3Storage) (namespace name provider version : string)
  : string :=
  storagePath (bucketPrefix s) namespace name provider version (archiveFormat s).

Definition writeKey (s : S3Storage) (namespace name provider version : string)
  : string :=
  storagePath (bucketPrefix s) namespace name provider version
    DefaultArchiveFormat.
End Storage.

(** ** Construction *)

(** What this file reads and writes of an SDK client: [Client.Endpoint] and
    [Client.Config.S3ForcePathStyle], a pointer that is nil until it is set. *)
Record Client := mkClient {
  Endpoint : string;
  S3ForcePathStyle : option bool
}.

(** The [*S3Storage] while it is built: its fields and its two handles.
    [s3.New(sess)] and [s3manager.NewUploader(sess)] each make a client of
    their own from the session. *)
Record handle := mkHandle {
  fields : S3Storage;
  s3 : Client;
  uploader : Client
}.

(** The type [S3StorageOption]: a func on a pointer to the S3Storage. *)
Definition S3StorageOption : Type := handle → handle.

(** An option that assigns to fields only. *)
Definition onFields (f : S3Storage → S3Storage) : S3StorageOption :=
  λ h, mkHandle (f (fields h)) (s3 h) (uploader h).

Definition WithS3StorageBucketEndpoint (endpoint : string) : S3StorageOption :=
  λ h,
    let client := if decide (0 < String.length endpoint)
                  then mkClient endpoint (S3ForcePathStyle (s3 h))
                  else s3 h in
    mkHandle
      (mkS3Storage (bucket (fields h)) (bucketPrefix (fields h))
         (archiveFormat (fields h)) (bucketRegion (fields h))
         (pathStyle (fields h)) "aws sdk default")
      client (uploader h).

Definition WithS3StoragePathStyle (style : bool) : S3StorageOption :=
  λ h,
    let client := if style
                  then mkClient (Endpoint (s3 h)) (Some style)
                  else s3 h in
    mkHandle
      (mkS3Storage (bucket (fields h)) (bucketPrefix (fields h))
         (archiveFormat (fields h)) (bucketRegion (fields h))
         style (bucketEndpoint (fields h)))
      client (uploader h).

(** The options this file provides. *)
Inductive provided : S3StorageOption → Prop :=
| provided_prefix prefix : provided (onFields (WithS3StorageBucketPrefix prefix))
| provided_format format : provided (onFields (WithS3ArchiveFormat format))
| provided_region region : provided (onFields (WithS3StorageBucketRegion region))
| provided_endpoint endpoint : provided (WithS3StorageBucketEndpoint endpoint)
| provided_style style : provided (WithS3StoragePathStyle style).

(** [for _, option := range options { option(s) }] *)
Definition applyOptions (options : list S3StorageOption) (h : handle) : handle :=
  fold_left (λ h option, option h) options h.

(** An error value made outside the package (by the SDK or by the session):
    a leaf, known by its text. *)
Definition foreign (text : string) : error := New text.

Section Construction.
Context {layout : KeyLayout}.

(** [session.NewSession()] depends on the process environment: its result,
    the client a session yields and the error, is an argument. So is
    [s3manager.GetBucketRegionWithClient], a call of the SDK on the client
    and the bucket that returns a region and an error text. *)
Variable NewSession : Client * option string.
Variable GetBucketRegionWithClient : Client → string → IO (string * option string).

Definition determineBucketRegion (h : handle) : IO (string * option error) :=
  r <- GetBucketRegionWithClient (s3 h) (bucket (fields h)) ;;
  match r.2 with
  | Some text => ret ("", Some (foreign text))
  | None => ret (r.1, None)
  end.

(** The struct NewS3Storage starts from: the two handles made from the
    session, the bucket and the default archive format; the other fields have
    their zero value. *)
Definition initialHandle (bucketName : string) : handle :=
  mkHandle (mkS3Storage bucketName "" DefaultArchiveFormat "" false "")
    NewSession.1 NewSession.1.

Definition NewS3Storage (bucketName : string) (options : list S3StorageOption)
  : IO (option handle * option error) :=
  match NewSession.2 with
  | Some text => ret (None, Some (foreign text))
  | None =>
      let s := applyOptions options (initialHandle bucketName) in
      if decide (bucketRegion (fields s) = "") then
        r <- determineBucketRegion s ;;
        match r.2 with
        | Some err =>
            ret (None, Some (Wrap err "failed to determine bucket region"))
        | None =>
            ret (Some (onFields (WithS3StorageBucketRegion r.1) s), None)
        end
      else ret (Some s, None)
  end.
End Construction.

(** ** The key layout of the specification *)

Module SpecLayout.

(** Modelled from the spec: [storagePrefix] is declared in a file of the
    package that is not among the sources. The part of the key layout of
    section 3 that all versions of one (namespace, name, provider) share:
    <prefix>/<namespace>/<name>/<provider>. *)
Definition storagePrefix (prefix namespace name provider : string) : string :=
  prefix ++ "/" ++ namespace ++ "/" ++ name ++ "/" ++ provider.

(** Modelled from the spec: [storagePath] is declared in a file of the
    package that is not among the sources. The key layout of section 3:
    <prefix>/<namespace>/<name>/<provider>/<name>-<version>.<format>. *)
Definition storagePath
  (prefix namespace name provider version format : string) : string :=
  storagePrefix prefix namespace name provider
    ++ "/" ++ name ++ "-" ++ version ++ "." ++ format.

(** Modelled from the spec: [DefaultArchiveFormat] is declared in a file of
    the package that is not among the sources; section 4.2 and the scenario
    of section 8 give "tar.gz". *)
Definition DefaultArchiveFormat : string := "tar.gz".

(** The pieces of [s] between the occurrences of [sep]. *)
Fixpoint splitOn (sep : ascii) (s : string) : list string :=
  match s with
  | EmptyString => [""]
  | String c s' =>
      if Ascii.eqb c sep then "" :: splitOn sep s'
      else match splitOn sep s' with
           | [] => [String c ""]
           | seg :: segs => String c seg :: segs
           end
  end.

(** [s] without its prefix [p], when it starts with [p]. *)
Fixpoint stripPrefix (p s : string) : option string :=
  match p, s with
  | EmptyString, _ => Some s
  | String a p', String c s' =>
      if Ascii.eqb a c then stripPrefix p' s' else None
  | String _ _, EmptyString => None
  end.

(** [s] without its suffix, when it ends with it. *)
Definition stripSuffix (suffix s : string) : option string :=
  String.rev <$> stripPrefix (String.rev suffix) (String.rev s).

(** Modelled from the spec: [objectMetadata] is declared in a file of the
    package that is not among the sources. Section 4.2: the key is parsed
    against the path shape to extract the version and the other identity
    fields; a key of another shape gives no version. The shape is the one
    uploads write: the layout above with the default archive format. *)
Definition objectMetadata (key : string) : gmap string string :=
  match rev (splitOn "/"%char key) with
  | file :: provider :: name :: namespace :: _ =>
      match stripPrefix (name ++ "-") file with
      | Some rest =>
          match stripSuffix ("." ++ DefaultArchiveFormat) rest with
          | Some version =>
              {[ "namespace" := namespace; "name" := name;
                 "provider" := provider; "version" := version ]}
          | None => ∅
          end
      | None => ∅
      end
  | _ => ∅
  end.

Definition layout : KeyLayout :=
  Build_KeyLayout storagePrefix storagePath objectMetadata DefaultArchiveFormat.

End SpecLayout.

(** A backend on bucket "registry" with the scenario's prefix, and an empty
    service. *)
Definition scenario : S3Storage :=
  mkS3Storage "registry" "modules" "tar.gz" "eu-west-1" false "".

Definition emptyS3 : S3 := mkS3 ∅ [] [].

(** The same backend configured to read zip archives. *)
Definition zipScenario : S3Storage := WithS3ArchiveFormat "zip" scenario.

(** A service that holds version 1.0.0 of acme/vpc/aws. *)
Definition stocked : S3 :=
  mkS3 {[ ("registry", "modules/acme/vpc/aws/vpc-1.0.0.tar.gz") := "archive" ]}
    [] [].

(** The same service when its next request fails in transport. *)
Definition unreachable : S3 :=
  mkS3 (objects stocked) [Some "RequestError: send request failed"] [].

(** An empty service whose third request fails in transport. *)
Definition flaky : S3 :=
  mkS3 ∅ [None; None; Some "RequestError: send request failed"] [].

(** A bucket with two versions, a file that is no archive, and an archive
    of another module stored below the same prefix. *)
Definition crowded : S3 :=
  mkS3 {[ ("registry", "modules/acme/vpc/aws/vpc-1.0.0.tar.gz") := "a";
          ("registry", "modules/acme/vpc/aws/vpc-1.1.0.tar.gz") := "b";
          ("registry", "modules/acme/vpc/aws/README.md") := "c";
          ("registry", "modules/acme/vpc/aws/corp/net/gcp/net-2.0.0.tar.gz") := "d";
          ("registry", "modules/acme/dns/aws/dns-0.1.0.tar.gz") := "e";
          ("backup", "modules/acme/vpc/aws/vpc-0.9.0.tar.gz") := "f" ]}
    [] [].


(** A stand-in for [s3manager.GetBucketRegionWithClient] in the examples:
    one request, answered from a table of the regions of the buckets. *)
Definition regionFrom (regions : gmap string string) (c : Client) (b : string)
  : IO (string * option string) :=
  f <- transport ;;
  match f, regions !! b with
  | Some text, _ => ret ("", Some text)
  | None, Some region => ret (region, None)
  | None, None => ret ("", Some headNotFound)
  end.

(** A session of the examples, and the regions of their buckets. *)
Definition awsSession : Client * option string :=
  (mkClient "https://s3.amazonaws.com" None, None).

Definition regions : gmap string string := {[ "registry" := "eu-west-1" ]}.

(** Options of the examples: a prefix, an S3-compatible endpoint, path
    style switched on and off again, and an empty endpoint. *)
Definition sampleOptions : list S3StorageOption :=
  [onFields (WithS3StorageBucketPrefix "modules");
   WithS3StorageBucketEndpoint "http://minio:9000";
   WithS3StoragePathStyle true;
   WithS3StoragePathStyle false;
   WithS3StorageBucketEndpoint ""].

(** * Properties *)

(** ** The service calls, run *)

Lemma transport_run w :
  transport w = (answer w, mkS3 (objects w) (tail (faults w)) (trace w)).
Proof. destruct w as [o [|f fs] t]; reflexivity. Qed.

Lemma HeadObject_run b k w :
  HeadObject b k w = (probe b k w, sent (HeadObjectReq b k) (probe b k w) w).
Proof.
  unfold HeadObject, bind, stored, record, ret, probe, sent.
  rewrite transport_run. simpl.
  destruct (answer w), (objects w !! (b, k)); reflexivity.
Qed.

Lemma Upload_run b k body w :
  Upload b k body w =
    (answer w,
     mkS3 (match answer w with
           | Some _ => objects w
           | None => <[(b, k) := body]> (objects w)
           end)
       (tail (faults w)) (trace w ++ [(UploadReq b k body, answer w)])).
Proof.
  unfold Upload, bind, store, record, ret.
  rewrite transport_run. destruct (answer w); reflexivity.
Qed.

Lemma append_nil_r (a : string) : a ++ "" = a.
Proof.
  induction a as [|c a IH]; [reflexivity|].
  change (String c (a ++ "") = String c a). by rewrite IH.
Qed.

Lemma append_assoc (a b c : string) : (a ++ b) ++ c = a ++ (b ++ c).
Proof.
  induction a as [|ch a IH]; [reflexivity|].
  change (String ch ((a ++ b) ++ c) = String ch (a ++ (b ++ c))). by rewrite IH.
Qed.

Lemma append_nonempty_r (a b : string) : b ≠ "" → a ++ b ≠ "".
Proof.
  intros Hb H. destruct a as [|c a]; [exact (Hb H)|].
  change (String c (a ++ b) = "") in H. discriminate H.
Qed.


Lemma includes_app_l (a b : string) : includes (a ++ b) b.
Proof. exists a, "". by rewrite append_nil_r. Qed.

Lemma includes_trans (a b c : string) : includes a b → includes b c → includes a c.
Proof.
  intros (p1 & q1 & ->) (p2 & q2 & ->).
  exists (p1 ++ p2), (q2 ++ q1). by rewrite !append_assoc.
Qed.

Lemma writes_app t1 t2 : writes (t1 ++ t2) = writes t1 + writes t2.
Proof. unfold writes. by rewrite List.filter_app, length_app. Qed.

Lemma writes_snoc t e :
  writes (t ++ [e]) = writes t + (if isWrite e then 1 else 0).
Proof. rewrite writes_app. unfold writes. simpl. by destruct (isWrite e). Qed.

(** ** Listing *)

Lemma paginate_go_concat {A} n room (cur l : list A) :
  concat (paginate_go n room cur l) = (rev cur ++ l)%list.
Proof.
  revert room cur. induction l as [|x l IH]; intros room cur; simpl.
  - reflexivity.
  - destruct room as [|room]; simpl; rewrite IH; simpl.
    + reflexivity.
    + by rewrite <- app_assoc.
Qed.

Lemma paginate_concat {A} n (l : list A) : concat (paginate n l) = l.
Proof. unfold paginate. by rewrite paginate_go_concat. Qed.

Lemma paginate_nil {A} n : paginate n (@nil A) = [[]].
Proof. reflexivity. Qed.

Lemma elem_of_keysUnder b prefix w k :
  k ∈ keysUnder b prefix w ↔ is_Some (objects w !! (b, k)) ∧ hasPrefix prefix k.
Proof.
  unfold keysUnder. rewrite merge_sort_Permutation.
  rewrite list_elem_of_filter, list_elem_of_fmap. split.
  - intros [Hpre ([b' k'] & -> & Hin)]. split; [|done].
    apply list_elem_of_filter in Hin as [Hb Hin]. unfold inBucket in Hb.
    simpl in Hb. subst b'.
    apply list_elem_of_fmap in Hin as ([bk c] & Hbk & Hin). simpl in Hbk.
    subst bk. apply elem_of_map_to_list in Hin. by exists c.
  - intros [[c Hc] Hpre]. split; [done|]. exists (b, k). split; [done|].
    apply list_elem_of_filter. split; [done|].
    apply list_elem_of_fmap. exists ((b, k), c). split; [done|].
    by apply elem_of_map_to_list.
Qed.

Lemma keysUnder_nil b prefix w :
  keysUnder b prefix w = [] ↔
  ∀ k, hasPrefix prefix k → objects w !! (b, k) = None.
Proof.
  split.
  - intros Hnil k Hpre. destruct (objects w !! (b, k)) as [c|] eqn:Hc; [|done].
    assert (Hin : k ∈ keysUnder b prefix w)
      by (apply elem_of_keysUnder; eauto).
    rewrite Hnil in Hin. by apply elem_of_nil in Hin.
  - intros Hnone. destruct (keysUnder b prefix w) as [|k ks] eqn:Hks; [done|].
    assert (Hin : k ∈ keysUnder b prefix w) by (rewrite Hks; apply list_elem_of_here).
    apply elem_of_keysUnder in Hin as [[c Hc] Hpre].
    rewrite (Hnone k Hpre) in Hc. discriminate Hc.
Qed.

Lemma firstFault_S n w :
  firstFault (S n) (faults w) =
    match answer w with
    | Some msg => Some msg
    | None => firstFault n (tail (faults w))
    end.
Proof.
  unfold answer. destruct (faults w) as [|[msg|] fs]; simpl; try reflexivity.
  by destruct n.
Qed.

Section Properties.
Context {layout : KeyLayout}.

Lemma GetModule_run s namespace name provider version w :
  GetModule s namespace name provider version w =
    (match probe (bucket s) (readKey s namespace name provider version) w with
     | Some msg => (zeroModule, Some (Wrap (Sentinel ErrNotFound) msg))
     | None => (mkModule namespace name provider version
                  (downloadURL s (readKey s namespace name provider version)), None)
     end,
     sent (HeadObjectReq (bucket s) (readKey s namespace name provider version))
       (probe (bucket s) (readKey s namespace name provider version) w) w).
Proof.
  unfold GetModule, bind. rewrite HeadObject_run. fold (readKey s namespace name provider version).
  destruct (probe _ _ w); reflexivity.
Qed.

(** The validation of UploadModule, field by field. *)
Lemma UploadModule_validation s namespace name provider version body w :
  namespace = "" ∨ name = "" ∨ provider = "" ∨ version = "" →
  ∃ field,
    UploadModule s namespace name provider version body w =
      ((zeroModule, Some (New (field ++ " not defined"))), w)
    ∧ (field, "") ∈ [("namespace", namespace); ("name", name);
                     ("provider", provider); ("version", version)].
Proof.
  intros Hempty. unfold UploadModule.
  destruct (decide (namespace = "")) as [->|Hns].
  { exists "namespace". split; [reflexivity|]. apply list_elem_of_here. }
  destruct (decide (name = "")) as [->|Hn].
  { exists "name". split; [reflexivity|].
    apply list_elem_of_further, list_elem_of_here. }
  destruct (decide (provider = "")) as [->|Hp].
  { exists "provider". split; [reflexivity|].
    do 2 apply list_elem_of_further. apply list_elem_of_here. }
  destruct (decide (version = "")) as [->|Hv].
  { exists "version". split; [reflexivity|].
    do 3 apply list_elem_of_further. apply list_elem_of_here. }
  destruct Hempty as [?|[?|[?|?]]]; congruence.
Qed.

(** UploadModule past its validation: probe, write, re-read. *)
Lemma UploadModule_run s namespace name provider version body w :
  namespace ≠ "" → name ≠ "" → provider ≠ "" → version ≠ "" →
  UploadModule s namespace name provider version body w =
    let rk := readKey s namespace name provider version in
    let wk := writeKey s namespace name provider version in
    let w1 := sent (HeadObjectReq (bucket s) rk) (probe (bucket s) rk w) w in
    match probe (bucket s) rk w with
    | None => ((zeroModule, Some (Wrap (Sentinel ErrAlreadyExists) wk)), w1)
    | Some _ =>
        match answer w1 with
        | Some msg =>
            ((zeroModule, Some (Wrapf (Sentinel ErrUploadFailed) msg)),
             sent (UploadReq (bucket s) wk body) (Some msg) w1)
        | None =>
            GetModule s namespace name provider version
              (written (bucket s) wk body w1)
        end
    end.
Proof.
  intros Hns Hn Hp Hv. unfold UploadModule.
  rewrite !decide_False by done.
  unfold bind at 1. rewrite GetModule_run.
  fold (writeKey s namespace name provider version).
  destruct (probe _ _ w) as [msg|] eqn:Hprobe; simpl; [|reflexivity].
  unfold bind. rewrite Upload_run.
  destruct (answer _) as [msg'|] eqn:Hans; reflexivity.
Qed.

(** The five ways a call of UploadModule ends. *)
Lemma UploadModule_cases s namespace name provider version body w :
  let rk := readKey s namespace name provider version in
  let wk := writeKey s namespace name provider version in
  let w1 := sent (HeadObjectReq (bucket s) rk) (probe (bucket s) rk w) w in
  let w2 := written (bucket s) wk body w1 in
  let r := UploadModule s namespace name provider version body w in
  (∃ field, r = ((zeroModule, Some (New (field ++ " not defined"))), w))
  ∨ (probe (bucket s) rk w = None
     ∧ r = ((zeroModule, Some (Wrap (Sentinel ErrAlreadyExists) wk)), w1))
  ∨ (∃ msg, is_Some (probe (bucket s) rk w) ∧ answer w1 = Some msg
     ∧ r = ((zeroModule, Some (Wrapf (Sentinel ErrUploadFailed) msg)),
            sent (UploadReq (bucket s) wk body) (Some msg) w1))
  ∨ (∃ msg, is_Some (probe (bucket s) rk w) ∧ answer w1 = None
     ∧ probe (bucket s) rk w2 = Some msg
     ∧ r = ((zeroModule, Some (Wrap (Sentinel ErrNotFound) msg)),
            sent (HeadObjectReq (bucket s) rk) (Some msg) w2))
  ∨ (is_Some (probe (bucket s) rk w) ∧ answer w1 = None
     ∧ probe (bucket s) rk w2 = None
     ∧ namespace ≠ "" ∧ name ≠ "" ∧ provider ≠ "" ∧ version ≠ ""
     ∧ r = ((mkModule namespace name provider version (downloadURL s rk), None),
            sent (HeadObjectReq (bucket s) rk) None w2)).
Proof.
  intros rk wk w1 w2 r.
  destruct (decide (namespace = "")) as [Hns|Hns];
    [|destruct (decide (name = "")) as [Hn|Hn];
      [|destruct (decide (provider = "")) as [Hp|Hp];
        [|destruct (decide (version = "")) as [Hv|Hv]]]].
  1-4: left;
    destruct (UploadModule_validation s namespace name provider version body w)
      as (field & Hr & _); [tauto|]; by exists field.
  right. subst r. rewrite UploadModule_run by done. simpl.
  fold rk wk w1 w2.
  destruct (probe (bucket s) rk w) as [msg0|] eqn:Hprobe; [|by left].
  right. destruct (answer w1) as [msg|] eqn:Hans.
  { left. exists msg. eauto. }
  right. rewrite GetModule_run. fold rk.
  destruct (probe (bucket s) rk w2) as [msg|] eqn:Hprobe2.
  - left. exists msg. eauto.
  - right. eauto 10.
Qed.

Lemma probe_None b k w :
  probe b k w = None ↔ answer w = None ∧ is_Some (objects w !! (b, k)).
Proof.
  unfold probe. destruct (answer w), (objects w !! (b, k)); split;
    try done; try (by intros [? []]); try (by intros [? ?]); eauto.
Qed.

Lemma probe_sent b k r out w :
  answer (sent r out w) = None →
  probe b k (sent r out w) = None ↔ is_Some (objects w !! (b, k)).
Proof. intros Hans. rewrite probe_None. simpl. tauto. Qed.

(** ** UploadModule: validation *)

(** C3. A call of UploadModule with an empty namespace, name, provider or
    version fails with the validation error that names the first empty
    field, and the service is left exactly as it was: no probe and no
    write was sent. *)
Theorem UploadModule_rejects_empty_field s namespace name provider version body w :
  namespace = "" ∨ name = "" ∨ provider = "" ∨ version = "" →
  ∃ field,
    (field, "") ∈ [("namespace", namespace); ("name", name);
                   ("provider", provider); ("version", version)]
    ∧ (UploadModule s namespace name provider version body w).1 =
        (zeroModule, Some (New (field ++ " not defined")))
    ∧ (UploadModule s namespace name provider version body w).2 = w
    ∧ trace (UploadModule s namespace name provider version body w).2 = trace w
    ∧ objects (UploadModule s namespace name provider version body w).2 = objects w.
Proof.
  intros Hempty.
  destruct (UploadModule_validation s namespace name provider version body w Hempty)
    as (field & -> & Hfield).
  exists field. simpl. auto.
Qed.

(** ** UploadModule: an existing module *)


(** ** UploadModule: success *)

(** C2. When UploadModule succeeds, the module it returns is what
    GetModule returned on the service just after the write (the re-read),
    and a GetModule that follows, its probe answered by the service,
    succeeds with the four identity fields of the call. *)
Theorem UploadModule_returns_reread s namespace name provider version body w m :
  (UploadModule s namespace name provider version body w).1 = (m, None) →
  let r := UploadModule s namespace name provider version body w in
  (∃ w1 w2,
      objects w1 = objects w
      ∧ w2 = written (bucket s)
               (storagePath (bucketPrefix s) namespace name provider version
                  DefaultArchiveFormat) body w1
      ∧ GetModule s namespace name provider version w2 = ((m, None), r.2))
  ∧ (answer r.2 = None →
     ∃ m', (GetModule s namespace name provider version r.2).1 = (m', None)
           ∧ Namespace m' = namespace ∧ Name m' = name
           ∧ Provider m' = provider ∧ Version m' = version).
Proof.
  intros Hok r. subst r.
  destruct (UploadModule_cases s namespace name provider version body w)
    as [(field & Hr)|[(_ & Hr)|[(msg & _ & _ & Hr)|[(msg & _ & _ & _ & Hr)
       |(_ & Hans & Hprobe2 & _ & _ & _ & _ & Hr)]]]];
    rewrite Hr in Hok |- *; simpl in Hok; try discriminate Hok.
  injection Hok as <-.
  set (rk := readKey s namespace name provider version) in *.
  set (wk := writeKey s namespace name provider version) in *.
  set (w1 := sent (HeadObjectReq (bucket s) rk) (probe (bucket s) rk w) w) in *.
  simpl. split.
  - exists w1, (written (bucket s) wk body w1).
    split; [reflexivity|]. split; [reflexivity|].
    rewrite GetModule_run. fold rk. by rewrite Hprobe2.
  - intros Hans2. eexists. rewrite GetModule_run. fold rk.
    apply probe_None in Hprobe2 as [_ Hobj].
    assert (Hp3 : probe (bucket s) rk
                    (sent (HeadObjectReq (bucket s) rk) None
                       (written (bucket s) wk body w1)) = None)
      by by apply probe_sent.
    rewrite Hp3. simpl. auto.
Qed.

(** ** GetModule: the error *)

(** C4, amended. GetModule succeeds exactly when its probe goes through
    and an object is stored at the key. It fails with NotFound whenever no
    object is stored there, and also whenever the probe fails for any other
    reason: the text of a transport error becomes the message of a NotFound
    error, so every error of GetModule has NotFound as its cause. *)
Theorem GetModule_every_error_is_NotFound s namespace name provider version w :
  let key := storagePath (bucketPrefix s) namespace name provider version
               (archiveFormat s) in
  let r := (GetModule s namespace name provider version w).1 in
  (r.2 = None ↔ answer w = None ∧ is_Some (objects w !! (bucket s, key)))
  ∧ (objects w !! (bucket s, key) = None →
     ∃ msg, r = (zeroModule, Some (Wrap (Sentinel ErrNotFound) msg)))
  ∧ (∀ msg, answer w = Some msg →
       r = (zeroModule, Some (Wrap (Sentinel ErrNotFound) msg)))
  ∧ (∀ e, r.2 = Some e → Cause e = Sentinel ErrNotFound).
Proof.
  intros key r. subst r. rewrite GetModule_run.
  fold (readKey s namespace name provider version) in key. fold key.
  pose proof (probe_None (bucket s) key w) as HNone.
  unfold probe in *.
  destruct (answer w) as [tmsg|], (objects w !! (bucket s, key)) as [c|];
    simpl; repeat split; try done; eauto;
    try (by intros; simplify_eq); try (by apply HNone);
    try (by intros [? ?]); try (by intros [? [? ?]]).
Qed.

(** ** UploadModule: the writes *)

(** C5, amended. A call of UploadModule that succeeds has performed
    exactly one object write. A call that fails in the validation, with
    AlreadyExists or with UploadFailed has performed none and leaves the
    objects as they were. A call that fails with the NotFound of the re-read
    has performed its write: the object is in the store. *)
Theorem UploadModule_write_count s namespace name provider version body w :
  let key := storagePath (bucketPrefix s) namespace name provider version
               DefaultArchiveFormat in
  let r := UploadModule s namespace name provider version body w in
  let one := writes (trace r.2) = S (writes (trace w))
             ∧ objects r.2 = <[(bucket s, key) := body]> (objects w) in
  let zero := writes (trace r.2) = writes (trace w)
              ∧ objects r.2 = objects w in
  (r.1.2 = None → one)
  ∧ (∀ e, r.1.2 = Some e → Cause e ≠ Sentinel ErrNotFound → zero)
  ∧ (∀ e, r.1.2 = Some e → Cause e = Sentinel ErrNotFound → one).
Proof.
  intros key r one zero. subst one zero r.
  fold (writeKey s namespace name provider version) in key. subst key.
  destruct (UploadModule_cases s namespace name provider version body w)
    as [(field & Hr)|[(_ & Hr)|[(msg & _ & _ & Hr)|[(msg & _ & _ & _ & Hr)
       |(_ & _ & _ & _ & _ & _ & _ & Hr)]]]];
    rewrite Hr; simpl; rewrite ?writes_snoc; simpl;
    (split; [|split]); intros; simplify_eq; simpl in *;
    try done; split; (lia || reflexivity).
Qed.

(** ** The archive format of reads and of writes *)


(** ** ListModuleVersions *)

Lemma collect_omap s namespace name provider contents modules :
  collect s namespace name provider contents modules =
    (modules ++ omap (moduleOfKey s namespace name provider) contents)%list.
Proof.
  revert modules. induction contents as [|key rest IH]; intros modules; simpl.
  - by rewrite app_nil_r.
  - unfold moduleOfKey at 1.
    destruct (objectMetadata key !! "version") as [version|]; simpl.
    + rewrite IH. by rewrite <- app_assoc.
    + apply IH.
Qed.

Lemma omap_moduleOfKey_filter s namespace name provider (contents : list string) :
  omap (moduleOfKey s namespace name provider) (filter parseable contents) =
    omap (moduleOfKey s namespace name provider) contents.
Proof.
  induction contents as [|key rest IH]; [reflexivity|].
  rewrite filter_cons.
  destruct (decide (parseable key)) as [Hv|Hv]; unfold parseable in Hv.
  - csimpl. by rewrite IH.
  - csimpl. unfold moduleOfKey at 2.
    destruct (objectMetadata key !! "version"); [by destruct Hv|]. apply IH.
Qed.

Lemma servePages_listFn s namespace name provider b prefix i pages modules w :
  let r := (servePages b prefix (listFn s namespace name provider)
              i pages modules w).1 in
  r.2 = firstFault (length pages) (faults w)
  ∧ (firstFault (length pages) (faults w) = None →
     r.1 = collect s namespace name provider (concat pages) modules).
Proof.
  revert i modules w.
  induction pages as [|page rest IH]; intros i modules w.
  { simpl. split; [reflexivity|]. intros _. reflexivity. }
  change (length (page :: rest)) with (S (length rest)). rewrite firstFault_S.
  cbn [servePages concat]. unfold bind, record. rewrite transport_run.
  destruct (answer w) as [msg|]; simpl.
  { split; [reflexivity|]. intros H. discriminate H. }
  specialize (IH (S i) (collect s namespace name provider page modules)
                (mkS3 (objects w) (tail (faults w))
                   (trace w ++ [(ListObjectsV2Req b prefix i, None)]))).
  simpl in IH. destruct IH as [IH1 IH2]. split; [exact IH1|].
  intros H. rewrite IH2 by exact H.
  by rewrite !collect_omap, omap_app, app_assoc.
Qed.

(** ListModuleVersions, run: the error of the listing, or the modules of
    the listed keys. *)
Lemma ListModuleVersions_run s namespace name provider w :
  let prefix := storagePrefix (bucketPrefix s) namespace name provider in
  (ListModuleVersions s namespace name provider w).1 =
    match listingOutcome (bucket s) prefix w with
    | Some msg => ([], Some (Wrap (Sentinel ErrListFailed) msg))
    | None => (omap (moduleOfKey s namespace name provider)
                 (keysUnder (bucket s) prefix w), None)
    end.
Proof.
  intros prefix. unfold ListModuleVersions, bind, ListObjectsV2Pages.
  fold prefix.
  pose proof (servePages_listFn s namespace name provider (bucket s) prefix 0
                (paginate MaxKeys (keysUnder (bucket s) prefix w)) [] w)
    as [Herr Hmods].
  fold (listingOutcome (bucket s) prefix w) in Herr, Hmods.
  destruct (servePages _ _ _ _ _ _ w) as [[modules err] w'].
  simpl in *. subst err.
  destruct (listingOutcome (bucket s) prefix w) as [msg|]; [reflexivity|].
  simpl. rewrite Hmods by done.
  by rewrite paginate_concat, collect_omap.
Qed.

Lemma versions_of_modules s namespace name provider (keys : list string) :
  Version <$> omap (moduleOfKey s namespace name provider) keys =
    omap (λ key, objectMetadata key !! "version") keys.
Proof.
  induction keys as [|key rest IH]; [reflexivity|]. csimpl.
  unfold moduleOfKey at 1.
  destruct (objectMetadata key !! "version"); csimpl; by rewrite IH.
Qed.

Lemma elem_of_listed_modules s namespace name provider (keys : list string) m :
  m ∈ omap (moduleOfKey s namespace name provider) keys ↔
  ∃ key, key ∈ keys
         ∧ objectMetadata key !! "version" = Some (Version m)
         ∧ m = mkModule namespace name provider (Version m) (downloadURL s key).
Proof.
  rewrite list_elem_of_omap. unfold moduleOfKey. split.
  - intros (key & Hin & Hm). exists key. split; [done|].
    destruct (objectMetadata key !! "version") as [v|]; simplify_eq/=. done.
  - intros (key & Hin & Hv & Hm). exists key. split; [done|].
    rewrite Hv. simpl. by rewrite <- Hm.
Qed.

Lemma UploadModule_success_stored s namespace name provider version body w m w' :
  UploadModule s namespace name provider version body w = ((m, None), w') →
  objects w' !! (bucket s, writeKey s namespace name provider version) = Some body.
Proof.
  intros Hup.
  destruct (UploadModule_cases s namespace name provider version body w)
    as [(field & Hr)|[(_ & Hr)|[(msg & _ & _ & Hr)|[(msg & _ & _ & _ & Hr)
       |(_ & _ & _ & _ & _ & _ & _ & Hr)]]]];
    rewrite Hr in Hup; simplify_eq/=.
  apply lookup_insert_eq.
Qed.

(** C7. A listed key from which no version is recovered adds nothing and
    the callback goes on with the keys after it: the modules collected from
    a page are those of its parseable keys, the callback always asks for the
    next page, and the call fails only with the error of the listing itself,
    whatever the keys under the prefix are. *)
Theorem ListModuleVersions_skips_unparseable s namespace name provider w :
  let prefix := storagePrefix (bucketPrefix s) namespace name provider in
  let keys := keysUnder (bucket s) prefix w in
  (∀ key rest modules,
      objectMetadata key !! "version" = None →
      collect s namespace name provider (key :: rest) modules =
        collect s namespace name provider rest modules)
  ∧ (∀ contents modules,
       collect s namespace name provider contents modules =
         collect s namespace name provider (filter parseable contents) modules)
  ∧ (∀ page last modules,
       (listFn s namespace name provider page last modules).2 = true)
  ∧ (ListModuleVersions s namespace name provider w).1 =
      match listingOutcome (bucket s) prefix w with
      | Some msg => ([], Some (Wrap (Sentinel ErrListFailed) msg))
      | None =>
          (collect s namespace name provider (filter parseable keys) [], None)
      end.
Proof.
  intros prefix keys. repeat split.
  - intros key rest modules Hv. simpl. by rewrite Hv.
  - intros contents modules.
    by rewrite !collect_omap, omap_moduleOfKey_filter.
  - rewrite ListModuleVersions_run. fold prefix keys.
    by rewrite collect_omap, omap_moduleOfKey_filter.
Qed.

(** C8. When the listing goes through, ListModuleVersions returns, with a
    nil error, exactly the versions of the objects stored under the prefix
    of (namespace, name, provider): a version is returned if and only if it
    is recovered from the key of an object of the bucket under that prefix.
    A version that UploadModule stored under the prefix is among them. With
    no object under the prefix the result is empty and the error nil. The
    call fails, with ListFailed wrapped around the text of the listing's
    error and no module, exactly when the listing fails. *)
Theorem ListModuleVersions_versions s namespace name provider w :
  let prefix := storagePrefix (bucketPrefix s) namespace name provider in
  let r := (ListModuleVersions s namespace name provider w).1 in
  (listingOutcome (bucket s) prefix w = None →
     r.2 = None
     ∧ Version <$> r.1 =
         omap (λ key, objectMetadata key !! "version")
           (keysUnder (bucket s) prefix w)
     ∧ ∀ version,
         version ∈ Version <$> r.1 ↔
         ∃ key, is_Some (objects w !! (bucket s, key))
                ∧ hasPrefix prefix key
                ∧ objectMetadata key !! "version" = Some version)
  ∧ (∀ version body w0 m,
       UploadModule s namespace name provider version body w0 = ((m, None), w) →
       hasPrefix prefix
         (storagePath (bucketPrefix s) namespace name provider version
            DefaultArchiveFormat) →
       objectMetadata
         (storagePath (bucketPrefix s) namespace name provider version
            DefaultArchiveFormat) !! "version" = Some version →
       listingOutcome (bucket s) prefix w = None →
       version ∈ Version <$> r.1)
  ∧ (listingOutcome (bucket s) prefix w = None →
     (∀ key, hasPrefix prefix key → objects w !! (bucket s, key) = None) →
     r = ([], None))
  ∧ (∀ msg, listingOutcome (bucket s) prefix w = Some msg ↔
            r = ([], Some (Wrap (Sentinel ErrListFailed) msg)))
  ∧ (∀ e, r.2 = Some e →
          Cause e = Sentinel ErrListFailed
          ∧ ∃ msg, listingOutcome (bucket s) prefix w = Some msg).
Proof.
  intros prefix r.
  assert (Hversions :
    listingOutcome (bucket s) prefix w = None →
    ∀ version,
      version ∈ Version <$> r.1 ↔
      ∃ key, is_Some (objects w !! (bucket s, key))
             ∧ hasPrefix prefix key
             ∧ objectMetadata key !! "version" = Some version).
  { intros Hok version. subst r. rewrite ListModuleVersions_run.
    fold prefix. rewrite Hok. simpl. rewrite versions_of_modules.
    rewrite list_elem_of_omap. split.
    - intros (key & Hin & Hv). apply elem_of_keysUnder in Hin as [Hobj Hpre].
      eauto.
    - intros (key & Hobj & Hpre & Hv). exists key. split; [|done].
      by apply elem_of_keysUnder. }
  split; [|split; [|split; [|split]]].
  - intros Hok. split; [|split; [|by apply Hversions]];
      subst r; rewrite ListModuleVersions_run; fold prefix; rewrite Hok; simpl.
    + reflexivity.
    + apply versions_of_modules.
  - intros version body w0 m Hup Hpre Hv Hok. apply (Hversions Hok).
    exists (writeKey s namespace name provider version).
    split; [|done]. rewrite (UploadModule_success_stored _ _ _ _ _ _ _ _ _ Hup).
    eauto.
  - intros Hok Hnone. subst r. rewrite ListModuleVersions_run. fold prefix.
    rewrite Hok. apply keysUnder_nil in Hnone. by rewrite Hnone.
  - intros msg. subst r. rewrite ListModuleVersions_run. fold prefix.
    destruct (listingOutcome (bucket s) prefix w) as [msg'|]; split;
      intros H; by simplify_eq.
  - intros e. subst r. rewrite ListModuleVersions_run. fold prefix.
    destruct (listingOutcome (bucket s) prefix w) as [msg'|]; simpl;
      intros H; simplify_eq. split; [reflexivity|eauto].
Qed.

(** ** The download URL *)

Lemma downloadURL_includes_key s key :
  downloadURL s key ≠ "" ∧ includes (downloadURL s key) key.
Proof.
  unfold downloadURL. split.
  - apply append_nonempty_r. intros H.
    change (String "." ("s3-" ++ bucketRegion s ++ ".amazonaws.com/" ++ key) = "")
      in H. discriminate H.
  - eapply includes_trans; [apply includes_app_l|].
    eapply includes_trans; [apply includes_app_l|].
    eapply includes_trans; [apply includes_app_l|].
    apply includes_app_l.
Qed.

(** C9. The download URL of a module returned by GetModule or by
    ListModuleVersions is the bucket, ".s3-", the region, ".amazonaws.com/"
    and the key of the object: the key GetModule probed, or the listed key.
    It is not empty and the key occurs in it. The other configuration
    fields (path style, endpoint) have no part in it. *)
Theorem download_url_convention s namespace name provider version w :
  let key := storagePath (bucketPrefix s) namespace name provider version
               (archiveFormat s) in
  (∀ m, (GetModule s namespace name provider version w).1 = (m, None) →
        DownloadURL m =
          bucket s ++ ".s3-" ++ bucketRegion s ++ ".amazonaws.com/" ++ key
        ∧ DownloadURL m ≠ ""
        ∧ includes (DownloadURL m) key)
  ∧ (∀ m, m ∈ (ListModuleVersions s namespace name provider w).1.1 →
        ∃ listed,
          listed ∈ keysUnder (bucket s)
                     (storagePrefix (bucketPrefix s) namespace name provider) w
          ∧ DownloadURL m =
              bucket s ++ ".s3-" ++ bucketRegion s ++ ".amazonaws.com/" ++ listed
          ∧ DownloadURL m ≠ ""
          ∧ includes (DownloadURL m) listed)
  ∧ (∀ style endpoint,
       let s' := mkS3Storage (bucket s) (bucketPrefix s) (archiveFormat s)
                   (bucketRegion s) style endpoint in
       (GetModule s' namespace name provider version w).1 =
         (GetModule s namespace name provider version w).1
       ∧ (ListModuleVersions s' namespace name provider w).1 =
           (ListModuleVersions s namespace name provider w).1).
Proof.
  intros key. split; [|split].
  - intros m. rewrite GetModule_run.
    fold (readKey s namespace name provider version) in key. fold key.
    destruct (probe (bucket s) key w); intros Hm; simplify_eq/=.
    split; [reflexivity|]. apply downloadURL_includes_key.
  - intros m. rewrite ListModuleVersions_run.
    destruct (listingOutcome _ _ w) as [msg|]; simpl.
    { intros Hin. by apply elem_of_nil in Hin. }
    intros (listed & Hin & _ & ->)%elem_of_listed_modules.
    exists listed. split; [done|]. split; [reflexivity|].
    apply downloadURL_includes_key.
  - intros style endpoint s'. split.
    + rewrite !GetModule_run. reflexivity.
    + rewrite !ListModuleVersions_run. reflexivity.
Qed.

End Properties.

(** ** The identity fields of listed modules *)

(** C10. Every module ListModuleVersions returns has the namespace, name
    and provider of the call, and its version is the one recovered from a
    listed key. Every listed key with a version is reported under the
    identity of the call, and what else the metadata of the key says has no
    effect on the result. *)
Theorem ListModuleVersions_identity_from_arguments
  (layout : KeyLayout) s namespace name provider w :
  let prefix := storagePrefix (bucketPrefix s) namespace name provider in
  let keys := keysUnder (bucket s) prefix w in
  (∀ m, m ∈ (ListModuleVersions s namespace name provider w).1.1 →
        Namespace m = namespace ∧ Name m = name ∧ Provider m = provider
        ∧ ∃ key, key ∈ keys
                 ∧ objectMetadata key !! "version" = Some (Version m))
  ∧ (∀ key version,
       listingOutcome (bucket s) prefix w = None →
       key ∈ keys →
       objectMetadata key !! "version" = Some version →
       mkModule namespace name provider version (downloadURL s key)
         ∈ (ListModuleVersions s namespace name provider w).1.1)
  ∧ (∀ metadata',
       (∀ key, metadata' key !! "version" = objectMetadata key !! "version") →
       (@ListModuleVersions
          (Build_KeyLayout storagePrefix storagePath metadata'
             DefaultArchiveFormat) s namespace name provider w).1 =
         (ListModuleVersions s namespace name provider w).1).
Proof.
  intros prefix keys. split; [|split].
  - intros m. rewrite ListModuleVersions_run. fold prefix keys.
    destruct (listingOutcome _ _ w) as [msg|]; simpl.
    { intros Hin. by apply elem_of_nil in Hin. }
    intros (key & Hin & Hv & ->)%elem_of_listed_modules. simpl. eauto 10.
  - intros key version Hok Hin Hv. rewrite ListModuleVersions_run.
    fold prefix keys. rewrite Hok. simpl.
    apply elem_of_listed_modules. exists key. simpl. auto.
  - intros metadata' Hsame.
    rewrite (ListModuleVersions_run (layout := layout)).
    rewrite (ListModuleVersions_run
               (layout := Build_KeyLayout storagePrefix storagePath metadata'
                            DefaultArchiveFormat)).
    simpl. fold prefix keys. destruct (listingOutcome _ _ w); [reflexivity|].
    f_equal. induction keys as [|key rest IH]; [reflexivity|]. csimpl.
    rewrite IH. unfold moduleOfKey at 1 3. simpl. by rewrite Hsame.
Qed.


(** * Further properties of the operations *)

Lemma firstFault_None_S n w :
  firstFault (S n) (faults w) = None →
  answer w = None ∧ firstFault n (tail (faults w)) = None.
Proof.
  rewrite firstFault_S. destruct (answer w); [discriminate|done].
Qed.

Lemma drop_tail {A} n (l : list A) : drop n (tail l) = drop (S n) l.
Proof. destruct l; simpl; [by rewrite drop_nil|done]. Qed.

Lemma paginate_go_not_nil {A} n room (cur l : list A) :
  paginate_go n room cur l ≠ [].
Proof.
  revert room cur. induction l as [|x l IH]; intros room cur; simpl; [done|].
  destruct room; [done|apply IH].
Qed.

Lemma NoDup_keysUnder b prefix w : NoDup (keysUnder b prefix w).
Proof.
  unfold keysUnder. rewrite merge_sort_Permutation.
  apply NoDup_filter. apply NoDup_fmap_2_strong.
  - intros [b1 k1] [b2 k2] H1 H2 Hk. simpl in Hk. subst k2.
    apply list_elem_of_filter in H1 as [Hb1 _].
    apply list_elem_of_filter in H2 as [Hb2 _].
    unfold inBucket in *. simpl in *. by subst.
  - apply NoDup_filter, NoDup_fst_map_to_list.
Qed.

Lemma downloadURL_inj s : Inj (=) (=) (downloadURL s).
Proof.
  intros k1 k2 H. unfold downloadURL in H.
  by do 4 apply String.app_inj in H.
Qed.

Section Operations.
Context {layout : KeyLayout}.

(** X1. GetModule only reads: the objects stay as they are, the log gets no
    write, exactly one transport outcome is used up. With an error comes the
    zero Module, with a nil error a Module of the four arguments. *)
Theorem GetModule_read_only s namespace name provider version w :
  let r := GetModule s namespace name provider version w in
  objects r.2 = objects w
  ∧ writes (trace r.2) = writes (trace w)
  ∧ List.length (trace r.2) = S (List.length (trace w))
  ∧ faults r.2 = tail (faults w)
  ∧ match r.1.2 with
    | Some _ => r.1.1 = zeroModule
    | None =>
        r.1.1 = mkModule namespace name provider version
                  (downloadURL s (readKey s namespace name provider version))
    end.
Proof.
  intros r. subst r. rewrite GetModule_run. simpl.
  rewrite writes_snoc, length_app. simpl.
  repeat split; try lia. by destruct (probe _ _ w).
Qed.

(** X2. The outcomes of UploadModule: a Module of the four (non-empty)
    arguments with a nil error, or the zero Module with one of four errors: a
    validation error, AlreadyExists with the key of the default format,
    UploadFailed, or the NotFound of the re-read. *)
Theorem UploadModule_outcomes s namespace name provider version body w :
  let r := (UploadModule s namespace name provider version body w).1 in
  (r = (mkModule namespace name provider version
          (downloadURL s (readKey s namespace name provider version)), None)
   ∧ namespace ≠ "" ∧ name ≠ "" ∧ provider ≠ "" ∧ version ≠ "")
  ∨ (r.1 = zeroModule
     ∧ ∃ e, r.2 = Some e
            ∧ ((∃ field, e = New (field ++ " not defined"))
               ∨ e = Wrap (Sentinel ErrAlreadyExists)
                       (writeKey s namespace name provider version)
               ∨ (∃ text, e = Wrapf (Sentinel ErrUploadFailed) text)
               ∨ (∃ text, e = Wrap (Sentinel ErrNotFound) text))).
Proof.
  intros r. subst r.
  destruct (UploadModule_cases s namespace name provider version body w)
    as [(field & Hr)|[(_ & Hr)|[(msg & _ & _ & Hr)|[(msg & _ & _ & _ & Hr)
       |(_ & _ & _ & Hns & Hn & Hp & Hv & Hr)]]]];
    rewrite Hr; simpl.
  - right. split; [done|]. eexists. split; [done|]. left. by exists field.
  - right. split; [done|]. eexists. split; [done|]. right. by left.
  - right. split; [done|]. eexists. split; [done|]. right. right. left.
    by exists msg.
  - right. split; [done|]. eexists. split; [done|]. do 3 right. by exists msg.
  - left. done.
Qed.

(** X3. UploadModule touches one key at most: every object under another key
    or in another bucket is after the call what it was before. The call sends
    at most three requests, at most one of them a write that goes through,
    and uses up one transport outcome per request. *)
Theorem UploadModule_frame s namespace name provider version body w :
  let r := UploadModule s namespace name provider version body w in
  (∀ b k,
     (b, k) ≠ (bucket s, writeKey s namespace name provider version) →
     objects r.2 !! (b, k) = objects w !! (b, k))
  ∧ ∃ new,
      trace r.2 = (trace w ++ new)%list
      ∧ (List.length new ≤ 3)%nat
      ∧ (writes new ≤ 1)%nat
      ∧ faults r.2 = drop (List.length new) (faults w).
Proof.
  intros r. subst r.
  destruct (UploadModule_cases s namespace name provider version body w)
    as [(field & Hr)|[(_ & Hr)|[(msg & _ & _ & Hr)|[(msg & _ & _ & _ & Hr)
       |(_ & _ & _ & _ & _ & _ & _ & Hr)]]]];
    rewrite Hr; simpl; (split; [intros b k Hk; by rewrite ?lookup_insert_ne|]).
  - exists []. rewrite app_nil_r. unfold writes, isWrite. simpl.
    repeat split; simpl; lia.
  - eexists [_]. unfold writes, isWrite. simpl. repeat split; simpl; try lia;
      by destruct (faults w) as [|? [|? [|? ?]]].
  - eexists [_; _]. rewrite <- !app_assoc. unfold writes, isWrite. simpl.
    repeat split; simpl; try lia;
      by destruct (faults w) as [|? [|? [|? ?]]].
  - eexists [_; _; _]. rewrite <- !app_assoc. unfold writes, isWrite. simpl.
    repeat split; simpl; try lia;
      by destruct (faults w) as [|? [|? [|? ?]]].
  - eexists [_; _; _]. rewrite <- !app_assoc. unfold writes, isWrite. simpl.
    repeat split; simpl; try lia;
      by destruct (faults w) as [|? [|? [|? ?]]].
Qed.

(** X4. When the probe of UploadModule fails in transport and the upload goes
    through, the object is written over whatever the key held: the call never
    ends in AlreadyExists, and if it fails it is with the NotFound of the
    re-read. *)
Theorem UploadModule_probe_failure_overwrites
  s namespace name provider version body w text :
  namespace ≠ "" → name ≠ "" → provider ≠ "" → version ≠ "" →
  answer w = Some text →
  hd None (tail (faults w)) = None →
  let r := UploadModule s namespace name provider version body w in
  objects r.2 =
    <[(bucket s, writeKey s namespace name provider version) := body]> (objects w)
  ∧ writes (trace r.2) = S (writes (trace w))
  ∧ ∀ e, r.1.2 = Some e → ∃ text', e = Wrap (Sentinel ErrNotFound) text'.
Proof.
  intros Hns Hn Hp Hv Hans Hans2 r. subst r.
  rewrite UploadModule_run by done. cbv zeta.
  assert (Hprobe : probe (bucket s) (readKey s namespace name provider version) w
                   = Some text) by (unfold probe; by rewrite Hans).
  rewrite Hprobe.
  assert (Ha1 : answer (sent (HeadObjectReq (bucket s)
                                (readKey s namespace name provider version))
                          (Some text) w) = None) by exact Hans2.
  rewrite Ha1, GetModule_run. simpl. rewrite !writes_snoc. simpl.
  repeat split; [lia|]. intros e.
  destruct (probe _ _ (written _ _ _ _)); simpl; intros; simplify_eq. eauto.
Qed.


(** One upload through a backend whose read key differs from the key it
    writes, nothing being stored under the read key. *)
Lemma UploadModule_mismatch_step s namespace name provider version body w :
  namespace ≠ "" → name ≠ "" → provider ≠ "" → version ≠ "" →
  readKey s namespace name provider version ≠
    writeKey s namespace name provider version →
  objects w !! (bucket s, readKey s namespace name provider version) = None →
  firstFault 3 (faults w) = None →
  ∃ w', UploadModule s namespace name provider version body w =
          ((zeroModule, Some (Wrap (Sentinel ErrNotFound) headNotFound)), w')
        ∧ objects w' !! (bucket s, writeKey s namespace name provider version)
            = Some body
        ∧ objects w' !! (bucket s, readKey s namespace name provider version)
            = None
        ∧ faults w' = tail (tail (tail (faults w))).
Proof.
  intros Hns Hn Hp Hv Hkeys Hnone Hf.
  set (rk := readKey s namespace name provider version) in *.
  set (wk := writeKey s namespace name provider version) in *.
  apply firstFault_None_S in Hf as [Ha0 Hf].
  set (w1 := sent (HeadObjectReq (bucket s) rk) (Some headNotFound) w).
  change (tail (faults w)) with (faults w1) in Hf.
  apply firstFault_None_S in Hf as [Ha1 Hf].
  set (w2 := written (bucket s) wk body w1).
  change (tail (faults w1)) with (faults w2) in Hf.
  apply firstFault_None_S in Hf as [Ha2 _].
  assert (Hp0 : probe (bucket s) rk w = Some headNotFound)
    by (unfold probe; by rewrite Ha0, Hnone).
  assert (Hrk2 : objects w2 !! (bucket s, rk) = None).
  { simpl. rewrite lookup_insert_ne; [done|]. intros Heq. simplify_eq. }
  assert (Hp2 : probe (bucket s) rk w2 = Some headNotFound)
    by (unfold probe; by rewrite Ha2, Hrk2).
  exists (sent (HeadObjectReq (bucket s) rk) (Some headNotFound) w2).
  rewrite UploadModule_run by done. cbv zeta. fold rk wk.
  rewrite Hp0. fold w1. rewrite Ha1. fold w2.
  rewrite GetModule_run. fold rk. rewrite Hp2. simpl.
  repeat split; [apply lookup_insert_eq|exact Hrk2].
Qed.

(** X6. Two uploads of one identity through a backend whose read key differs
    from the key it writes, nothing being stored under the read key and the
    service answering: each upload writes, the second over the first, and each
    fails with the NotFound of its re-read. No upload is refused. *)
Theorem UploadModule_format_mismatch s namespace name provider version body body' w :
  namespace ≠ "" → name ≠ "" → provider ≠ "" → version ≠ "" →
  readKey s namespace name provider version ≠
    writeKey s namespace name provider version →
  objects w !! (bucket s, readKey s namespace name provider version) = None →
  firstFault 6 (faults w) = None →
  let r1 := UploadModule s namespace name provider version body w in
  let r2 := UploadModule s namespace name provider version body' r1.2 in
  r1.1 = (zeroModule, Some (Wrap (Sentinel ErrNotFound) headNotFound))
  ∧ objects r1.2 !! (bucket s, writeKey s namespace name provider version)
      = Some body
  ∧ r2.1 = (zeroModule, Some (Wrap (Sentinel ErrNotFound) headNotFound))
  ∧ objects r2.2 !! (bucket s, writeKey s namespace name provider version)
      = Some body'.
Proof.
  intros Hns Hn Hp Hv Hkeys Hnone Hfaults r1 r2.
  destruct (UploadModule_mismatch_step s namespace name provider version body w)
    as (w' & Hr1 & Hwk1 & Hrk1 & Hf1); try done.
  { revert Hfaults. generalize (faults w). intros [|[?|] [|[?|] [|[?|] ?]]];
      simpl; done. }
  destruct (UploadModule_mismatch_step s namespace name provider version body' w')
    as (w'' & Hr2 & Hwk2 & _ & _); try done.
  { rewrite Hf1. revert Hfaults. generalize (faults w).
    intros [|[?|] [|[?|] [|[?|] [|[?|] [|[?|] [|[?|] ?]]]]]]; simpl; done. }
  subst r1 r2. rewrite Hr1. simpl. rewrite Hr2. simpl. done.
Qed.


(** X8. GetModule and ListModuleVersions agree. For an identity whose read key
    lies under the prefix and gives the version back, and with the service
    answering, GetModule succeeds exactly when the listing holds the Module of
    that identity, and then the two return the same Module. *)
Theorem GetModule_agrees_with_listing s namespace name provider version w :
  hasPrefix (storagePrefix (bucketPrefix s) namespace name provider)
    (readKey s namespace name provider version) →
  objectMetadata (readKey s namespace name provider version) !! "version"
    = Some version →
  answer w = None →
  listingOutcome (bucket s)
    (storagePrefix (bucketPrefix s) namespace name provider) w = None →
  let listed := (ListModuleVersions s namespace name provider w).1.1 in
  let got := (GetModule s namespace name provider version w).1 in
  (got.2 = None ↔
   mkModule namespace name provider version
     (downloadURL s (readKey s namespace name provider version)) ∈ listed)
  ∧ (got.2 = None → got.1 ∈ listed).
Proof.
  intros Hpre Hmeta Hans Hok listed got.
  set (rk := readKey s namespace name provider version) in *.
  assert (Hgot : got = match objects w !! (bucket s, rk) with
                       | Some _ => (mkModule namespace name provider version
                                      (downloadURL s rk), None)
                       | None => (zeroModule,
                                  Some (Wrap (Sentinel ErrNotFound) headNotFound))
                       end).
  { subst got. rewrite GetModule_run. fold rk. unfold probe. rewrite Hans.
    by destruct (objects w !! (bucket s, rk)). }
  assert (Hlisted : mkModule namespace name provider version (downloadURL s rk)
                      ∈ listed ↔ is_Some (objects w !! (bucket s, rk))).
  { subst listed. rewrite ListModuleVersions_run, Hok. simpl.
    rewrite elem_of_listed_modules. simpl. split.
    - intros (key & Hin & _ & Heq). injection Heq as Heq.
      apply downloadURL_inj in Heq. subst key.
      by apply elem_of_keysUnder in Hin as [Hobj _].
    - intros Hobj. exists rk. split; [by apply elem_of_keysUnder|done]. }
  rewrite Hgot, Hlisted.
  destruct (objects w !! (bucket s, rk)) as [c|]; simpl.
  - split; [split; eauto|]. intros _. apply Hlisted. eauto.
  - split; [split; [done|by intros [? ?]]|done].
Qed.

(** The page loop under the callback of ListModuleVersions: what it does to
    the service. *)
Lemma servePages_listFn_world s namespace name provider b prefix i pages modules w :
  let w' := (servePages b prefix (listFn s namespace name provider)
               i pages modules w).2 in
  objects w' = objects w
  ∧ ∃ new,
      trace w' = (trace w ++ new)%list
      ∧ Forall (λ e, ∃ j, e.1 = ListObjectsV2Req b prefix j) new
      ∧ (List.length new ≤ List.length pages)%nat
      ∧ (pages ≠ [] → (1 ≤ List.length new)%nat)
      ∧ (firstFault (List.length pages) (faults w) = None →
         List.length new = List.length pages)
      ∧ faults w' = drop (List.length new) (faults w).
Proof.
  revert i modules w.
  induction pages as [|page rest IH]; intros i modules w.
  { simpl. split; [done|]. exists []. rewrite app_nil_r.
    repeat split; simpl; try done; apply Forall_nil_2. }
  change (List.length (page :: rest)) with (S (List.length rest)).
  rewrite firstFault_S.
  cbn [servePages]. unfold bind, record. rewrite transport_run.
  destruct (answer w) as [text|]; simpl.
  { split; [done|]. exists [(ListObjectsV2Req b prefix i, Some text)].
    split; [done|].
    split; [apply Forall_cons_2; [simpl; eauto|apply Forall_nil_2]|].
    split; [simpl; lia|]. split; [simpl; lia|].
    split; [intros H; discriminate H|]. simpl. by destruct (faults w). }
  specialize (IH (S i) (collect s namespace name provider page modules)
                (mkS3 (objects w) (tail (faults w))
                   (trace w ++ [(ListObjectsV2Req b prefix i, None)]))).
  simpl in IH. destruct IH as (Hobj & new & Htrace & Hall & Hle & _ & Hlen & Hfaults).
  split; [exact Hobj|].
  exists ((ListObjectsV2Req b prefix i, None) :: new).
  split; [by rewrite Htrace, <- app_assoc|].
  split; [apply Forall_cons_2; [simpl; eauto|exact Hall]|].
  split; [simpl; lia|]. split; [simpl; lia|].
  split; [intros H; simpl; by rewrite Hlen|].
  simpl. by rewrite Hfaults, drop_tail.
Qed.

(** X9. ListModuleVersions only reads: the objects stay as they are and the
    log gets no write. It sends listing requests for its bucket and prefix and
    nothing else, at least one, one per page when none fails, and uses up one
    transport outcome per request. *)
Theorem ListModuleVersions_read_only s namespace name provider w :
  let prefix := storagePrefix (bucketPrefix s) namespace name provider in
  let pages := paginate MaxKeys (keysUnder (bucket s) prefix w) in
  let r := ListModuleVersions s namespace name provider w in
  objects r.2 = objects w
  ∧ writes (trace r.2) = writes (trace w)
  ∧ ∃ new,
      trace r.2 = (trace w ++ new)%list
      ∧ Forall (λ e, ∃ j, e.1 = ListObjectsV2Req (bucket s) prefix j) new
      ∧ (1 ≤ List.length new ≤ List.length pages)%nat
      ∧ (listingOutcome (bucket s) prefix w = None →
         List.length new = List.length pages)
      ∧ faults r.2 = drop (List.length new) (faults w).
Proof.
  intros prefix pages r.
  pose proof (servePages_listFn_world s namespace name provider (bucket s) prefix
                0 pages [] w) as (Hobj & new & Htrace & Hall & Hle & Hone & Hlen & Hfaults).
  assert (Hw : r.2 = (servePages (bucket s) prefix
                        (listFn s namespace name provider) 0 pages [] w).2).
  { subst r. unfold ListModuleVersions, bind, ListObjectsV2Pages.
    fold prefix pages.
    destruct (servePages _ _ _ _ _ _ w) as [[modules err] w'].
    simpl. by destruct err. }
  rewrite Hw. split; [exact Hobj|]. split.
  - rewrite Htrace, writes_app.
    assert (Hzero : writes new = 0).
    { clear -Hall. induction Hall as [|[req out] new' [j Hj] _ IH]; [done|].
      simpl in Hj. subst req. exact IH. }
    lia.
  - exists new. repeat split; try done.
    apply Hone. apply paginate_go_not_nil.
Qed.

(** X10. No two modules of a listing have the same download URL, and there are
    at most as many modules as keys under the prefix. *)
Theorem ListModuleVersions_distinct_urls s namespace name provider w :
  let prefix := storagePrefix (bucketPrefix s) namespace name provider in
  let modules := (ListModuleVersions s namespace name provider w).1.1 in
  NoDup (DownloadURL <$> modules)
  ∧ (List.length modules ≤ List.length (keysUnder (bucket s) prefix w))%nat.
Proof.
  intros prefix modules. subst modules. rewrite ListModuleVersions_run.
  fold prefix. destruct (listingOutcome _ _ w); simpl.
  { split; [apply NoDup_nil_2|lia]. }
  assert (Hurls : ∀ keys : list string,
    DownloadURL <$> omap (moduleOfKey s namespace name provider) keys =
      downloadURL s <$> filter parseable keys).
  { induction keys as [|key rest IH]; [done|]. rewrite filter_cons. csimpl.
    unfold moduleOfKey at 1.
    destruct (decide (parseable key)) as [Hv|Hv]; unfold parseable in Hv.
    - destruct Hv as [v Hv]. rewrite Hv. csimpl. by rewrite IH.
    - destruct (objectMetadata key !! "version"); [by destruct Hv|]. exact IH. }
  split.
  - rewrite Hurls. apply NoDup_fmap_2_strong.
    + intros k1 k2 _ _. apply downloadURL_inj.
    + apply NoDup_filter, NoDup_keysUnder.
  - generalize (keysUnder (bucket s) prefix w). intros keys.
    induction keys as [|key rest IH]; [done|]. csimpl.
    destruct (moduleOfKey s namespace name provider key); simpl; lia.
Qed.

End Operations.

(** * Properties of the construction *)

Lemma applyOptions_app options1 options2 h :
  applyOptions (options1 ++ options2) h =
    applyOptions options2 (applyOptions options1 h).
Proof. unfold applyOptions. apply fold_left_app. Qed.

(** What one provided option keeps. *)
Lemma provided_keeps option h :
  provided option →
  bucket (fields (option h)) = bucket (fields h)
  ∧ uploader (option h) = uploader h
  ∧ (bucketEndpoint (fields (option h)) = bucketEndpoint (fields h)
     ∨ bucketEndpoint (fields (option h)) = "aws sdk default")
  ∧ (S3ForcePathStyle (s3 h) = Some true →
     S3ForcePathStyle (s3 (option h)) = Some true)
  ∧ ((pathStyle (fields h) = true → S3ForcePathStyle (s3 h) = Some true) →
     pathStyle (fields (option h)) = true →
     S3ForcePathStyle (s3 (option h)) = Some true)
  ∧ (Endpoint (s3 h) ≠ "" → Endpoint (s3 (option h)) ≠ "").
Proof.
  intros [prefix|format|region|endpoint|style]; simpl;
    repeat split; auto.
  - by destruct (decide (0 < String.length endpoint)).
  - by destruct (decide (0 < String.length endpoint)).
  - destruct (decide (0 < String.length endpoint)) as [Hlen|Hlen]; simpl; auto.
    intros _ Heq. rewrite Heq in Hlen. simpl in Hlen. lia.
  - by destruct style.
  - destruct style; simpl; auto. intros _ H. discriminate H.
  - by destruct style.
Qed.

Lemma applyOptions_provided options h :
  Forall provided options →
  bucket (fields (applyOptions options h)) = bucket (fields h)
  ∧ uploader (applyOptions options h) = uploader h
  ∧ (bucketEndpoint (fields (applyOptions options h)) = bucketEndpoint (fields h)
     ∨ bucketEndpoint (fields (applyOptions options h)) = "aws sdk default")
  ∧ (S3ForcePathStyle (s3 h) = Some true →
     S3ForcePathStyle (s3 (applyOptions options h)) = Some true)
  ∧ ((pathStyle (fields h) = true → S3ForcePathStyle (s3 h) = Some true) →
     pathStyle (fields (applyOptions options h)) = true →
     S3ForcePathStyle (s3 (applyOptions options h)) = Some true)
  ∧ (Endpoint (s3 h) ≠ "" → Endpoint (s3 (applyOptions options h)) ≠ "").
Proof.
  intros Hall. revert h.
  induction Hall as [|option rest Hoption _ IH]; intros h.
  { simpl. repeat split; auto. }
  change (applyOptions (option :: rest) h) with (applyOptions rest (option h)).
  destruct (provided_keeps option h Hoption) as (Hb & Hu & He & Hf & Hs & Hn).
  destruct (IH (option h)) as (Hb' & Hu' & He' & Hf' & Hs' & Hn').
  split; [congruence|]. split; [congruence|].
  split; [destruct He' as [He'|He']; [rewrite He'; exact He|by right]|].
  split; [auto|]. split; [auto|]. auto.
Qed.

Section Building.
Context {layout : KeyLayout}.
Variable NewSession : Client * option string.
Variable GetBucketRegionWithClient : Client → string → IO (string * option string).

(** X11. The options of this file leave the bucket and the uploader's client
    alone, and the endpoint field holds what it held or the fixed text "aws
    sdk default", never an endpoint of the caller. *)
Theorem options_keep_bucket_and_uploader options h :
  Forall provided options →
  bucket (fields (applyOptions options h)) = bucket (fields h)
  ∧ uploader (applyOptions options h) = uploader h
  ∧ (bucketEndpoint (fields (applyOptions options h)) = bucketEndpoint (fields h)
     ∨ bucketEndpoint (fields (applyOptions options h)) = "aws sdk default").
Proof.
  intros Hall.
  destruct (applyOptions_provided options h Hall) as (Hb & Hu & He & _).
  auto.
Qed.

(** X12. The options only ever switch the client one way: once path style is
    forced it stays forced, a true path-style field comes with a client that
    forces it, and an endpoint that is set is never emptied. *)
Theorem options_client_one_way options h :
  Forall provided options →
  (S3ForcePathStyle (s3 h) = Some true →
   S3ForcePathStyle (s3 (applyOptions options h)) = Some true)
  ∧ ((pathStyle (fields h) = true → S3ForcePathStyle (s3 h) = Some true) →
     pathStyle (fields (applyOptions options h)) = true →
     S3ForcePathStyle (s3 (applyOptions options h)) = Some true)
  ∧ (Endpoint (s3 h) ≠ "" → Endpoint (s3 (applyOptions options h)) ≠ "").
Proof.
  intros Hall.
  destruct (applyOptions_provided options h Hall) as (_ & _ & _ & Hf & Hs & Hn).
  auto.
Qed.

(** X13. NewS3Storage returns a storage or an error, never both and never
    neither. A storage is for the bucket asked for and its uploader has the
    client of the session. An error is the error of the session itself,
    returned before anything is sent, or the error of the region lookup under
    the message "failed to determine bucket region". *)
Theorem NewS3Storage_outcome bucketName options w :
  Forall provided options →
  let r := NewS3Storage NewSession GetBucketRegionWithClient bucketName options w in
  (∃ h, r.1 = (Some h, None)
        ∧ NewSession.2 = None
        ∧ bucket (fields h) = bucketName
        ∧ uploader h = NewSession.1)
  ∨ (∃ text, r = ((None, Some (foreign text)), w) ∧ NewSession.2 = Some text)
  ∨ (∃ text, r.1 = (None, Some (Wrap (foreign text)
                                  "failed to determine bucket region"))
             ∧ NewSession.2 = None
             ∧ ∀ sentinelText Sprintf0,
                 Error sentinelText Sprintf0
                   (Wrap (foreign text) "failed to determine bucket region") =
                 "failed to determine bucket region: " ++ text).
Proof.
  intros Hall r. subst r. unfold NewS3Storage.
  destruct (NewSession.2) as [text|] eqn:HNS; simpl.
  { right. left. by exists text. }
  destruct (applyOptions_provided options (initialHandle NewSession bucketName)
              Hall) as (Hb & Hu & _).
  simpl in Hb, Hu.
  destruct (decide (bucketRegion (fields (applyOptions options _)) = ""))
    as [Hregion|Hregion].
  - unfold bind, determineBucketRegion, bind.
    destruct (GetBucketRegionWithClient _ _ w) as [[region [text|]] w']; simpl.
    + right. right. exists text. repeat split.
    + left. eexists. split; [reflexivity|]. simpl. auto.
  - left. eexists. split; [reflexivity|]. auto.
Qed.

(** X14. The region lookup of NewS3Storage runs exactly when the options leave
    the region empty. With a region set nothing is sent and the storage is
    what the options left. With none, the lookup is made with the client the
    options left and for the bucket asked for, and its region is stored; an
    error of the lookup fails the construction. *)
Theorem NewS3Storage_region bucketName options w :
  NewSession.2 = None →
  let s := applyOptions options (initialHandle NewSession bucketName) in
  let r := NewS3Storage NewSession GetBucketRegionWithClient bucketName options w in
  (bucketRegion (fields s) ≠ "" → r = ((Some s, None), w))
  ∧ (bucketRegion (fields s) = "" →
     ∀ region w',
       GetBucketRegionWithClient (s3 s) (bucket (fields s)) w
         = ((region, None), w') →
       r = ((Some (onFields (WithS3StorageBucketRegion region) s), None), w'))
  ∧ (bucketRegion (fields s) = "" →
     ∀ region text w',
       GetBucketRegionWithClient (s3 s) (bucket (fields s)) w
         = ((region, Some text), w') →
       r = ((None, Some (Wrap (foreign text) "failed to determine bucket region")),
            w')).
Proof.
  intros HNS s r. subst r. unfold NewS3Storage. rewrite HNS. fold s.
  destruct (decide (bucketRegion (fields s) = "")) as [Hregion|Hregion].
  - split; [done|]. split; intros _ region; [intros w' HG|intros text w' HG];
      unfold bind, determineBucketRegion, bind; by rewrite HG.
  - split; [done|]. split; intros Hempty; by destruct Hregion.
Qed.

(** X15. A storage built without an option that sets the archive format reads
    the default format: the key GetModule probes is the key UploadModule
    writes, for every identity. *)
Theorem NewS3Storage_default_format bucketName options w h :
  Forall (λ option : S3StorageOption,
            ∀ h0, archiveFormat (fields (option h0)) = archiveFormat (fields h0))
    options →
  (NewS3Storage NewSession GetBucketRegionWithClient bucketName options w).1
    = (Some h, None) →
  archiveFormat (fields h) = DefaultArchiveFormat
  ∧ ∀ namespace name provider version,
      readKey (fields h) namespace name provider version =
        writeKey (fields h) namespace name provider version.
Proof.
  intros Hall Hnew.
  assert (Hfmt : archiveFormat (fields h) = DefaultArchiveFormat).
  { assert (Hkept : ∀ h0, archiveFormat (fields (applyOptions options h0)) =
                          archiveFormat (fields h0)).
    { clear Hnew. induction Hall as [|option rest Hoption _ IH]; intros h0;
        [done|].
      change (applyOptions (option :: rest) h0)
        with (applyOptions rest (option h0)).
      by rewrite IH, Hoption. }
    revert Hnew. unfold NewS3Storage.
    destruct NewSession.2; [intros H; discriminate H|].
    destruct (decide (bucketRegion (fields (applyOptions options _)) = ""))
      as [Hregion|Hregion]; simpl.
    - unfold bind, determineBucketRegion, bind.
      destruct (GetBucketRegionWithClient _ _ w) as [[region [text|]] w']; simpl;
        intros H; simplify_eq. simpl. apply Hkept.
    - intros H. simplify_eq. apply Hkept. }
  split; [exact Hfmt|]. intros namespace name provider version.
  unfold readKey, writeKey. by rewrite Hfmt.
Qed.

(** X16. A storage built with an archive format as its last option reads that
    format and still writes the default one. *)
Theorem NewS3Storage_last_format bucketName options format w h :
  (NewS3Storage NewSession GetBucketRegionWithClient bucketName
     (options ++ [onFields (WithS3ArchiveFormat format)]) w).1 = (Some h, None) →
  archiveFormat (fields h) = format
  ∧ ∀ namespace name provider version,
      readKey (fields h) namespace name provider version =
        storagePath (bucketPrefix (fields h)) namespace name provider version format
      ∧ writeKey (fields h) namespace name provider version =
          storagePath (bucketPrefix (fields h)) namespace name provider version
            DefaultArchiveFormat.
Proof.
  intros Hnew.
  assert (Hfmt : archiveFormat (fields h) = format).
  { revert Hnew. unfold NewS3Storage.
    destruct NewSession.2; [intros H; discriminate H|].
    rewrite applyOptions_app.
    destruct (decide (bucketRegion (fields (applyOptions _ _)) = ""))
      as [Hregion|Hregion]; simpl.
    - unfold bind, determineBucketRegion, bind.
      destruct (GetBucketRegionWithClient _ _ w) as [[region [text|]] w']; simpl;
        intros H; by simplify_eq.
    - intros H. by simplify_eq. }
  split; [exact Hfmt|]. intros namespace name provider version.
  unfold readKey, writeKey. by rewrite Hfmt.
Qed.

End Building.

(** * The statements at concrete inputs *)

#[local] Existing Instance SpecLayout.layout.

Example upload_then_get :
  let up := UploadModule scenario "acme" "vpc" "aws" "1.0.0" "archive" emptyS3 in
  up.1 = (mkModule "acme" "vpc" "aws" "1.0.0"
            "registry.s3-eu-west-1.amazonaws.com/modules/acme/vpc/aws/vpc-1.0.0.tar.gz",
          None)
  ∧ (trace up.2).*1 =
      [HeadObjectReq "registry" "modules/acme/vpc/aws/vpc-1.0.0.tar.gz";
       UploadReq "registry" "modules/acme/vpc/aws/vpc-1.0.0.tar.gz" "archive";
       HeadObjectReq "registry" "modules/acme/vpc/aws/vpc-1.0.0.tar.gz"]
  ∧ (GetModule scenario "acme" "vpc" "aws" "1.0.0" up.2).1 = up.1.
Proof. vm_compute. repeat split. Qed.

Example list_crowded :
  (ListModuleVersions scenario "acme" "vpc" "aws" crowded).1 =
    ([mkModule "acme" "vpc" "aws" "2.0.0"
        "registry.s3-eu-west-1.amazonaws.com/modules/acme/vpc/aws/corp/net/gcp/net-2.0.0.tar.gz";
      mkModule "acme" "vpc" "aws" "1.0.0"
        "registry.s3-eu-west-1.amazonaws.com/modules/acme/vpc/aws/vpc-1.0.0.tar.gz";
      mkModule "acme" "vpc" "aws" "1.1.0"
        "registry.s3-eu-west-1.amazonaws.com/modules/acme/vpc/aws/vpc-1.1.0.tar.gz"],
     None).
Proof. vm_compute. reflexivity. Qed.

(** An upload without a name is refused and the service is untouched. *)
Lemma UploadModule_rejects_empty_field_witness :
  ("acme" = "" ∨ "" = "" ∨ "aws" = "" ∨ "1.0.0" = "")
  ∧ ∃ field,
      (field, "") ∈ [("namespace", "acme"); ("name", "");
                     ("provider", "aws"); ("version", "1.0.0")]
      ∧ (UploadModule scenario "acme" "" "aws" "1.0.0" "archive" stocked).1 =
          (zeroModule, Some (New (field ++ " not defined")))
      ∧ (UploadModule scenario "acme" "" "aws" "1.0.0" "archive" stocked).2 = stocked.
Proof.
  assert (Hempty : "acme" = "" ∨ "" = "" ∨ "aws" = "" ∨ "1.0.0" = "")
    by (right; left; reflexivity).
  split; [exact Hempty|].
  destruct (UploadModule_rejects_empty_field scenario "acme" "" "aws" "1.0.0"
              "archive" stocked Hempty) as (field & Hfield & Hres & Hw & _).
  exists field. auto.
Defined.


(** A first upload succeeds and the module can be read back. *)
Lemma UploadModule_returns_reread_witness :
  (UploadModule scenario "acme" "vpc" "aws" "1.0.0" "archive" emptyS3).1 =
    (mkModule "acme" "vpc" "aws" "1.0.0"
       "registry.s3-eu-west-1.amazonaws.com/modules/acme/vpc/aws/vpc-1.0.0.tar.gz",
     None)
  ∧ ∃ m', (GetModule scenario "acme" "vpc" "aws" "1.0.0"
             (UploadModule scenario "acme" "vpc" "aws" "1.0.0" "archive" emptyS3).2).1
          = (m', None)
          ∧ Namespace m' = "acme" ∧ Name m' = "vpc"
          ∧ Provider m' = "aws" ∧ Version m' = "1.0.0".
Proof.
  assert (Hup : (UploadModule scenario "acme" "vpc" "aws" "1.0.0" "archive"
                   emptyS3).1 =
            (mkModule "acme" "vpc" "aws" "1.0.0"
               "registry.s3-eu-west-1.amazonaws.com/modules/acme/vpc/aws/vpc-1.0.0.tar.gz",
             None)) by (vm_compute; reflexivity).
  split; [exact Hup|].
  destruct (UploadModule_returns_reread scenario "acme" "vpc" "aws" "1.0.0"
              "archive" emptyS3 _ Hup) as [_ Hnext].
  apply Hnext. vm_compute. reflexivity.
Defined.

(** C4, as stated, fails: the object is stored, the probe fails in
    transport, and GetModule reports NotFound. *)
Lemma GetModule_transport_error_reported_as_NotFound :
  objects unreachable !! ("registry", "modules/acme/vpc/aws/vpc-1.0.0.tar.gz")
    = Some "archive"
  ∧ readKey scenario "acme" "vpc" "aws" "1.0.0" =
      "modules/acme/vpc/aws/vpc-1.0.0.tar.gz"
  ∧ (GetModule scenario "acme" "vpc" "aws" "1.0.0" unreachable).1 =
      (zeroModule,
       Some (Wrap (Sentinel ErrNotFound) "RequestError: send request failed"))
  ∧ Cause (Wrap (Sentinel ErrNotFound) "RequestError: send request failed") =
      Sentinel ErrNotFound.
Proof. vm_compute. repeat split. Qed.

(** The same input through the amended statement. *)
Lemma GetModule_every_error_is_NotFound_witness :
  answer unreachable = Some "RequestError: send request failed"
  ∧ (GetModule scenario "acme" "vpc" "aws" "1.0.0" unreachable).1 =
      (zeroModule,
       Some (Wrap (Sentinel ErrNotFound) "RequestError: send request failed")).
Proof.
  split; [reflexivity|].
  destruct (GetModule_every_error_is_NotFound scenario "acme" "vpc" "aws" "1.0.0"
              unreachable) as (_ & _ & Hfault & _).
  apply Hfault. reflexivity.
Defined.

(** C5, as stated, fails: the upload goes through, the re-read fails in
    transport, and the call fails with its write performed. *)
Lemma UploadModule_fails_after_its_write :
  let r := UploadModule scenario "acme" "vpc" "aws" "1.0.0" "archive" flaky in
  r.1 = (zeroModule,
         Some (Wrap (Sentinel ErrNotFound) "RequestError: send request failed"))
  ∧ writes (trace flaky) = 0
  ∧ writes (trace r.2) = 1
  ∧ objects flaky !! ("registry", "modules/acme/vpc/aws/vpc-1.0.0.tar.gz") = None
  ∧ objects r.2 !! ("registry", "modules/acme/vpc/aws/vpc-1.0.0.tar.gz")
      = Some "archive".
Proof. vm_compute. repeat split. Qed.

(** The same input through the amended statement. *)
Lemma UploadModule_write_count_witness :
  let r := UploadModule scenario "acme" "vpc" "aws" "1.0.0" "archive" flaky in
  r.1.2 = Some (Wrap (Sentinel ErrNotFound) "RequestError: send request failed")
  ∧ writes (trace r.2) = S (writes (trace flaky)).
Proof.
  intros r.
  assert (Herr : r.1.2 = Some (Wrap (Sentinel ErrNotFound)
                                 "RequestError: send request failed"))
    by (vm_compute; reflexivity).
  split; [exact Herr|].
  destruct (UploadModule_write_count scenario "acme" "vpc" "aws" "1.0.0"
              "archive" flaky) as (_ & _ & Hreread).
  apply (Hreread _ Herr). reflexivity.
Defined.

(** A backend that reads zip archives still writes the tar.gz key: the
    upload goes through and the re-read does not find it. *)
Example UploadModule_other_format :
  let r := UploadModule zipScenario "acme" "vpc" "aws" "1.0.0" "archive" emptyS3 in
  (trace r.2).*1 =
    [HeadObjectReq "registry" "modules/acme/vpc/aws/vpc-1.0.0.zip";
     UploadReq "registry" "modules/acme/vpc/aws/vpc-1.0.0.tar.gz" "archive";
     HeadObjectReq "registry" "modules/acme/vpc/aws/vpc-1.0.0.zip"]
  ∧ r.1 = (zeroModule, Some (Wrap (Sentinel ErrNotFound) headNotFound))
  ∧ objects r.2 !! ("registry", "modules/acme/vpc/aws/vpc-1.0.0.tar.gz")
      = Some "archive".
Proof. vm_compute. repeat split. Qed.

(** The README under the prefix is passed over and the archive after it is
    collected. *)
Lemma ListModuleVersions_skips_unparseable_witness :
  objectMetadata "modules/acme/vpc/aws/README.md" !! "version" = None
  ∧ collect scenario "acme" "vpc" "aws"
      ["modules/acme/vpc/aws/README.md"; "modules/acme/vpc/aws/vpc-1.0.0.tar.gz"] []
    = collect scenario "acme" "vpc" "aws"
        ["modules/acme/vpc/aws/vpc-1.0.0.tar.gz"] [].
Proof.
  assert (Hv : objectMetadata "modules/acme/vpc/aws/README.md" !! "version" = None)
    by (vm_compute; reflexivity).
  split; [exact Hv|].
  destruct (ListModuleVersions_skips_unparseable scenario "acme" "vpc" "aws" crowded)
    as (Hskip & _).
  apply Hskip. exact Hv.
Defined.

(** After the upload of 1.0.0 the listing returns it. *)
Lemma ListModuleVersions_versions_witness :
  let up := UploadModule scenario "acme" "vpc" "aws" "1.0.0" "archive" emptyS3 in
  up.1.2 = None
  ∧ listingOutcome "registry" "modules/acme/vpc/aws" up.2 = None
  ∧ "1.0.0" ∈ Version <$> (ListModuleVersions scenario "acme" "vpc" "aws" up.2).1.1.
Proof.
  intros up.
  assert (Hok : listingOutcome (bucket scenario)
                  (storagePrefix (bucketPrefix scenario) "acme" "vpc" "aws") up.2
                = None) by (vm_compute; reflexivity).
  split; [vm_compute; reflexivity|]. split; [exact Hok|].
  destruct (ListModuleVersions_versions scenario "acme" "vpc" "aws" up.2)
    as (_ & Huploaded & _).
  apply (Huploaded "1.0.0" "archive" emptyS3 up.1.1).
  - vm_compute. reflexivity.
  - vm_compute. reflexivity.
  - vm_compute. reflexivity.
  - exact Hok.
Defined.

(** The URL of the stored version. *)
Lemma download_url_convention_witness :
  (GetModule scenario "acme" "vpc" "aws" "1.0.0" stocked).1.2 = None
  ∧ DownloadURL (GetModule scenario "acme" "vpc" "aws" "1.0.0" stocked).1.1 =
      "registry.s3-eu-west-1.amazonaws.com/modules/acme/vpc/aws/vpc-1.0.0.tar.gz"
  ∧ includes (DownloadURL (GetModule scenario "acme" "vpc" "aws" "1.0.0" stocked).1.1)
      "modules/acme/vpc/aws/vpc-1.0.0.tar.gz".
Proof.
  split; [vm_compute; reflexivity|].
  destruct (download_url_convention scenario "acme" "vpc" "aws" "1.0.0" stocked)
    as (Hget & _).
  destruct (Hget (GetModule scenario "acme" "vpc" "aws" "1.0.0" stocked).1.1)
    as (Hurl & _ & Hkey).
  - vm_compute. reflexivity.
  - split; [exact Hurl|exact Hkey].
Defined.

(** The archive of corp/net/gcp stored below the prefix of acme/vpc/aws is
    listed as a version of acme/vpc/aws. *)
Lemma ListModuleVersions_identity_from_arguments_witness :
  objectMetadata "modules/acme/vpc/aws/corp/net/gcp/net-2.0.0.tar.gz" !! "namespace"
    = Some "corp"
  ∧ objectMetadata "modules/acme/vpc/aws/corp/net/gcp/net-2.0.0.tar.gz" !! "version"
      = Some "2.0.0"
  ∧ mkModule "acme" "vpc" "aws" "2.0.0"
      (downloadURL scenario "modules/acme/vpc/aws/corp/net/gcp/net-2.0.0.tar.gz")
      ∈ (ListModuleVersions scenario "acme" "vpc" "aws" crowded).1.1.
Proof.
  assert (Hv : objectMetadata "modules/acme/vpc/aws/corp/net/gcp/net-2.0.0.tar.gz"
                 !! "version" = Some "2.0.0") by (vm_compute; reflexivity).
  split; [vm_compute; reflexivity|]. split; [exact Hv|].
  destruct (ListModuleVersions_identity_from_arguments SpecLayout.layout scenario
              "acme" "vpc" "aws" crowded) as (_ & Hlisted & _).
  apply Hlisted.
  - vm_compute. reflexivity.
  - apply (bool_decide_unpack _). vm_compute. exact I.
  - exact Hv.
Defined.


(** ** The further properties at concrete inputs *)

(** An upload of version 2.0.0 into the crowded bucket leaves 1.1.0 alone. *)
Lemma UploadModule_frame_witness :
  ("registry", "modules/acme/vpc/aws/vpc-1.1.0.tar.gz")
    ≠ (bucket scenario, writeKey scenario "acme" "vpc" "aws" "2.0.0")
  ∧ objects (UploadModule scenario "acme" "vpc" "aws" "2.0.0" "z" crowded).2
      !! ("registry", "modules/acme/vpc/aws/vpc-1.1.0.tar.gz")
    = objects crowded !! ("registry", "modules/acme/vpc/aws/vpc-1.1.0.tar.gz").
Proof.
  assert (Hne : ("registry", "modules/acme/vpc/aws/vpc-1.1.0.tar.gz")
                ≠ (bucket scenario, writeKey scenario "acme" "vpc" "aws" "2.0.0")).
  { apply (bool_decide_unpack _). vm_compute. exact I. }
  split; [exact Hne|].
  destruct (UploadModule_frame scenario "acme" "vpc" "aws" "2.0.0" "z" crowded)
    as [Hframe _].
  apply Hframe. exact Hne.
Defined.

(** The stored archive is replaced when the probe fails in transport. *)
Lemma UploadModule_probe_failure_overwrites_witness :
  answer unreachable = Some "RequestError: send request failed"
  ∧ objects unreachable
      !! (bucket scenario, writeKey scenario "acme" "vpc" "aws" "1.0.0")
    = Some "archive"
  ∧ objects (UploadModule scenario "acme" "vpc" "aws" "1.0.0" "other" unreachable).2
      !! (bucket scenario, writeKey scenario "acme" "vpc" "aws" "1.0.0")
    = Some "other".
Proof.
  split; [reflexivity|]. split; [vm_compute; reflexivity|].
  destruct (UploadModule_probe_failure_overwrites scenario "acme" "vpc" "aws"
              "1.0.0" "other" unreachable "RequestError: send request failed"
              ltac:(discriminate) ltac:(discriminate) ltac:(discriminate)
              ltac:(discriminate) eq_refl eq_refl) as [Hobj _].
  rewrite Hobj. apply lookup_insert_eq.
Defined.


(** Through the backend that reads zip, the second upload replaces the
    first and both report NotFound. *)
Lemma UploadModule_format_mismatch_witness :
  let r1 := UploadModule zipScenario "acme" "vpc" "aws" "1.0.0" "first" emptyS3 in
  let r2 := UploadModule zipScenario "acme" "vpc" "aws" "1.0.0" "second" r1.2 in
  readKey zipScenario "acme" "vpc" "aws" "1.0.0"
    ≠ writeKey zipScenario "acme" "vpc" "aws" "1.0.0"
  ∧ r1.1 = (zeroModule, Some (Wrap (Sentinel ErrNotFound) headNotFound))
  ∧ r2.1 = (zeroModule, Some (Wrap (Sentinel ErrNotFound) headNotFound))
  ∧ objects r2.2
      !! (bucket zipScenario, writeKey zipScenario "acme" "vpc" "aws" "1.0.0")
    = Some "second".
Proof.
  intros r1 r2.
  assert (Hne : readKey zipScenario "acme" "vpc" "aws" "1.0.0"
                ≠ writeKey zipScenario "acme" "vpc" "aws" "1.0.0").
  { apply (bool_decide_unpack _). vm_compute. exact I. }
  split; [exact Hne|].
  pose proof (UploadModule_format_mismatch zipScenario "acme" "vpc" "aws"
                "1.0.0" "first" "second" emptyS3 ltac:(discriminate)
                ltac:(discriminate) ltac:(discriminate) ltac:(discriminate)
                Hne eq_refl eq_refl) as H.
  cbv zeta in H. destruct H as (H1 & _ & H2 & H3). subst r1 r2. auto.
Defined.


(** The stored version is got and listed as one Module. *)
Lemma GetModule_agrees_with_listing_witness :
  (GetModule scenario "acme" "vpc" "aws" "1.0.0" stocked).1.2 = None
  ∧ (GetModule scenario "acme" "vpc" "aws" "1.0.0" stocked).1.1
      ∈ (ListModuleVersions scenario "acme" "vpc" "aws" stocked).1.1.
Proof.
  assert (Hgot : (GetModule scenario "acme" "vpc" "aws" "1.0.0" stocked).1.2 = None)
    by (vm_compute; reflexivity).
  split; [exact Hgot|].
  destruct (GetModule_agrees_with_listing scenario "acme" "vpc" "aws" "1.0.0"
              stocked) as [_ Hin].
  - vm_compute. reflexivity.
  - vm_compute. reflexivity.
  - reflexivity.
  - vm_compute. reflexivity.
  - apply Hin. exact Hgot.
Defined.

(** The listing of the crowded bucket takes one request and writes
    nothing. *)
Lemma ListModuleVersions_read_only_witness :
  listingOutcome "registry" "modules/acme/vpc/aws" crowded = None
  ∧ objects (ListModuleVersions scenario "acme" "vpc" "aws" crowded).2
      = objects crowded
  ∧ ∃ new,
      trace (ListModuleVersions scenario "acme" "vpc" "aws" crowded).2
        = (trace crowded ++ new)%list
      ∧ List.length new = 1.
Proof.
  assert (Hok : listingOutcome (bucket scenario)
                  (storagePrefix (bucketPrefix scenario) "acme" "vpc" "aws")
                  crowded = None) by (vm_compute; reflexivity).
  split; [exact Hok|].
  destruct (ListModuleVersions_read_only scenario "acme" "vpc" "aws" crowded)
    as (Hobj & _ & new & Htrace & _ & _ & Hlen & _).
  split; [exact Hobj|]. exists new. split; [exact Htrace|].
  rewrite (Hlen Hok). vm_compute. reflexivity.
Defined.

(** The sample options keep the bucket and the uploader's client, while the
    client of the probes gets the endpoint. *)
Lemma options_keep_bucket_and_uploader_witness :
  let h := applyOptions sampleOptions (initialHandle awsSession "registry") in
  Forall provided sampleOptions
  ∧ bucket (fields h) = "registry"
  ∧ uploader h = mkClient "https://s3.amazonaws.com" None
  ∧ Endpoint (s3 h) = "http://minio:9000"
  ∧ bucketEndpoint (fields h) = "aws sdk default".
Proof.
  intros h.
  assert (Hall : Forall provided sampleOptions).
  { repeat (apply Forall_cons_2; [constructor|]). apply Forall_nil_2. }
  split; [exact Hall|].
  destruct (options_keep_bucket_and_uploader sampleOptions
              (initialHandle awsSession "registry") Hall) as (Hb & Hu & _).
  split; [exact Hb|]. split; [exact Hu|]. split; reflexivity.
Defined.

(** Path style switched on and then off: the field says off, the client
    still forces it. *)
Lemma options_client_one_way_witness :
  let h := WithS3StoragePathStyle true (initialHandle awsSession "registry") in
  let h' := applyOptions [WithS3StoragePathStyle false;
                          WithS3StorageBucketEndpoint ""] h in
  S3ForcePathStyle (s3 h) = Some true
  ∧ pathStyle (fields h') = false
  ∧ S3ForcePathStyle (s3 h') = Some true.
Proof.
  intros h h'.
  assert (Hall : Forall provided [WithS3StoragePathStyle false;
                                  WithS3StorageBucketEndpoint ""]).
  { repeat (apply Forall_cons_2; [constructor|]). apply Forall_nil_2. }
  destruct (options_client_one_way [WithS3StoragePathStyle false;
                                    WithS3StorageBucketEndpoint ""] h Hall)
    as (Hforced & _).
  split; [reflexivity|]. split; [reflexivity|]. apply Hforced. reflexivity.
Defined.

(** A construction for a bucket that is not there fails under the message
    of the region lookup. *)
Lemma NewS3Storage_outcome_witness :
  Forall provided sampleOptions
  ∧ ∃ text,
      (NewS3Storage awsSession (regionFrom regions) "nowhere" sampleOptions
         emptyS3).1
      = (None, Some (Wrap (foreign text) "failed to determine bucket region")).
Proof.
  assert (Hall : Forall provided sampleOptions).
  { repeat (apply Forall_cons_2; [constructor|]). apply Forall_nil_2. }
  split; [exact Hall|].
  destruct (NewS3Storage_outcome awsSession (regionFrom regions) "nowhere"
              sampleOptions emptyS3 Hall)
    as [(h & Hr & _)|[(text & Hr & _)|(text & Hr & _)]].
  - vm_compute in Hr. discriminate Hr.
  - vm_compute in Hr. discriminate Hr.
  - exists text. exact Hr.
Defined.

(** With a region among the options nothing is sent, even to a service
    that cannot be reached. *)
Lemma NewS3Storage_region_witness :
  NewS3Storage awsSession (regionFrom regions) "registry"
    [onFields (WithS3StorageBucketRegion "us-east-1")] unreachable
  = ((Some (applyOptions [onFields (WithS3StorageBucketRegion "us-east-1")]
              (initialHandle awsSession "registry")), None), unreachable).
Proof.
  destruct (NewS3Storage_region awsSession (regionFrom regions) "registry"
              [onFields (WithS3StorageBucketRegion "us-east-1")] unreachable
              eq_refl) as (Hset & _).
  apply Hset. discriminate.
Defined.

(** A storage built with a prefix and a region reads the key it writes. *)
Lemma NewS3Storage_default_format_witness :
  ∃ h,
    (NewS3Storage awsSession (regionFrom regions) "registry"
       [onFields (WithS3StorageBucketPrefix "modules");
        onFields (WithS3StorageBucketRegion "eu-west-1")] emptyS3).1
    = (Some h, None)
    ∧ readKey (fields h) "acme" "vpc" "aws" "1.0.0"
      = writeKey (fields h) "acme" "vpc" "aws" "1.0.0".
Proof.
  eexists. split; [vm_compute; reflexivity|].
  eapply (NewS3Storage_default_format awsSession (regionFrom regions) "registry"
            [onFields (WithS3StorageBucketPrefix "modules");
             onFields (WithS3StorageBucketRegion "eu-west-1")] emptyS3).
  - repeat (apply Forall_cons_2; [intros h0; reflexivity|]). apply Forall_nil_2.
  - vm_compute. reflexivity.
Defined.

(** A storage built to read zip archives probes the zip key and writes the
    tar.gz key. *)
Lemma NewS3Storage_last_format_witness :
  ∃ h,
    (NewS3Storage awsSession (regionFrom regions) "registry"
       ([onFields (WithS3StorageBucketPrefix "modules")]
        ++ [onFields (WithS3ArchiveFormat "zip")]) emptyS3).1
    = (Some h, None)
    ∧ readKey (fields h) "acme" "vpc" "aws" "1.0.0"
      = "modules/acme/vpc/aws/vpc-1.0.0.zip"
    ∧ writeKey (fields h) "acme" "vpc" "aws" "1.0.0"
      = "modules/acme/vpc/aws/vpc-1.0.0.tar.gz".
Proof.
  eexists. split; [vm_compute; reflexivity|].
  edestruct (NewS3Storage_last_format awsSession (regionFrom regions) "registry"
               [onFields (WithS3StorageBucketPrefix "modules")] "zip" emptyS3)
    as [_ Hkeys].
  - vm_compute. reflexivity.
  - destruct (Hkeys "acme" "vpc" "aws" "1.0.0") as [Hr Hw].
    split; [rewrite Hr|rewrite Hw]; vm_compute; reflexivity.
Defined.
